(** * Houston: flightcheck hook runner and configuration loader

    A shallow embedding of [flightcheck/index.js] (hook discovery, the
    concurrent hook runner, the result aggregator and the [cycle:start]
    handler) and of [src/lib/config/loader.ts] (the cascading configuration
    loader), with the properties of the specification stated over it.

    JavaScript strings are [string]s, JavaScript objects used as maps are
    [gmap string _], promises are recorded by the way they settle and the
    logical instant at which they do, and the effects of the handler (the
    log and the messages sent on the bus) are an explicit [World]. *)

From Stdlib Require Import ZArith List Ascii String Lia Bool.
From stdpp Require Import base option list gmap strings fin_maps.

Open Scope string_scope.

(** ** JavaScript string primitives used by the sources *)

Module JsString.

(** [c.toLowerCase()] on one code unit: the ASCII capitals are folded,
    every other byte is kept. *)
Definition lowerAscii (c : ascii) : ascii :=
  let n := nat_of_ascii c in
  if (65 <=? n)%nat && (n <=? 90)%nat then ascii_of_nat (n + 32) else c.

Fixpoint toLowerCase (s : string) : string :=
  match s with
  | EmptyString => EmptyString
  | String c s' => String (lowerAscii c) (toLowerCase s')
  end.

(** [s.startsWith(p)] *)
Definition startsWith (s p : string) : bool := String.prefix p s.

(** [hay.indexOf(needle)]: the first position at which [needle] occurs,
    [-1] when it does not occur. [from] is the position of the head of
    [hay] in the original string. *)
Fixpoint indexOfFrom (from : Z) (hay needle : string) : Z :=
  if String.prefix needle hay then from
  else match hay with
       | EmptyString => (-1)%Z
       | String _ hay' => indexOfFrom (from + 1)%Z hay' needle
       end.

Definition indexOf (hay needle : string) : Z := indexOfFrom 0 hay needle.

(** [s.split(sep)] for a one-character separator. [cur] is the segment
    being read, in reverse. *)
Definition revString (l : list ascii) : string :=
  string_of_list_ascii (List.rev l).

Fixpoint splitFrom (sep : ascii) (cur : list ascii) (s : string) : list string :=
  match s with
  | EmptyString => [revString cur]
  | String c s' =>
      if Ascii.eqb c sep then revString cur :: splitFrom sep [] s'
      else splitFrom sep (c :: cur) s'
  end.

Definition split (sep : ascii) (s : string) : list string := splitFrom sep [] s.

(** [arr.splice(1)]: removes every element from index 1 on and returns the
    removed elements. *)
Definition splice1 (arr : list string) : list string := List.tl arr.

(** [arr.join(sep)] *)
Fixpoint join (sep : string) (arr : list string) : string :=
  match arr with
  | [] => ""
  | [x] => x
  | x :: rest => x ++ sep ++ join sep rest
  end.

(** [s.replace(pat, rep)] with a string pattern: only the first occurrence
    of [pat] is replaced. *)
Fixpoint dropChars (n : nat) (s : string) : string :=
  match n, s with
  | O, _ => s
  | S n', String _ s' => dropChars n' s'
  | S _, EmptyString => EmptyString
  end.

Fixpoint replace (s pat rep : string) : string :=
  if String.prefix pat s then rep ++ dropChars (String.length pat) s
  else match s with
       | EmptyString => EmptyString
       | String c s' => String c (replace s' pat rep)
       end.

(** [s.trim()] over the ASCII white space characters. *)
Definition isSpace (c : ascii) : bool :=
  let n := nat_of_ascii c in
  (n =? 32)%nat || ((9 <=? n)%nat && (n <=? 13)%nat).

Fixpoint trimStart (s : string) : string :=
  match s with
  | String c s' => if isSpace c then trimStart s' else s
  | EmptyString => EmptyString
  end.

Fixpoint trimEndList (l : list ascii) : list ascii :=
  match l with
  | [] => []
  | c :: l' =>
      match trimEndList l' with
      | [] => if isSpace c then [] else [c]
      | r => c :: r
      end
  end.

Definition trim (s : string) : string :=
  string_of_list_ascii (trimEndList (list_ascii_of_string (trimStart s))).

End JsString.

Import JsString.

(** ** JavaScript values, completions and promises *)

(** A JavaScript number as the loader can produce one from a string: the
    decimal [m * 10^e] read from the literal (the rounding to a binary64 is
    not part of the model), an infinity, or NaN. *)
Inductive JsNumber :=
| NaN
| Infinity (negative : bool)
| Dec (m e : Z).

Inductive JsValue :=
| JUndefined
| JNull
| JBool (b : bool)
| JNum (n : JsNumber)
| JStr (s : string).

(** A thrown or rejected value. *)
Inductive JsError := Error (message : string).

(** The outcome of running a piece of synchronous code. *)
Inductive Completion (A : Type) :=
| Normal (a : A)
| Throw (e : JsError).
Arguments Normal {A} a.
Arguments Throw {A} e.

(** A promise, by the way it settles. [Fulfilled t v] and [Rejected t e]
    settle at the logical instant [t]; [Pending] never settles. *)
Inductive Promise (A : Type) :=
| Fulfilled (t : nat) (v : A)
| Rejected (t : nat) (e : JsError)
| Pending.
Arguments Fulfilled {A} t v.
Arguments Rejected {A} t e.
Arguments Pending {A}.

Module JsPromise.
Section Combinators.
Context {A B : Type}.

Definition settledAt (p : Promise A) : option nat :=
  match p with
  | Fulfilled t _ | Rejected t _ => Some t
  | Pending => None
  end.

(** A promise created at instant [t0] whose own clock starts there. *)
Definition delay (t0 : nat) (p : Promise A) : Promise A :=
  match p with
  | Fulfilled t v => Fulfilled (t0 + t) v
  | Rejected t e => Rejected (t0 + t) e
  | Pending => Pending
  end.

(** [p.then(f)] for a handler that does not throw. *)
Definition thenP (f : A -> B) (p : Promise A) : Promise B :=
  match p with
  | Fulfilled t v => Fulfilled t (f v)
  | Rejected t e => Rejected t e
  | Pending => Pending
  end.

(** The earliest rejection among [ps]; on equal instants the one that
    comes first in the array. *)
Fixpoint firstRejection (ps : list (Promise A)) : option (nat * JsError) :=
  match ps with
  | [] => None
  | p :: ps' =>
      match p, firstRejection ps' with
      | Rejected t e, Some (t', e') =>
          if (t <=? t')%nat then Some (t, e) else Some (t', e')
      | Rejected t e, None => Some (t, e)
      | _, r => r
      end
  end.

(** When every promise of [ps] is fulfilled: the instant of the last
    fulfilment and the values in array order. *)
Fixpoint allFulfilled (ps : list (Promise A)) : option (nat * list A) :=
  match ps with
  | [] => Some (O, [])
  | Fulfilled t v :: ps' =>
      match allFulfilled ps' with
      | Some (t', vs) => Some (Nat.max t t', v :: vs)
      | None => None
      end
  | _ :: _ => None
  end.

(** [Promise.all(ps)]: rejected as soon as one input is rejected,
    fulfilled with the array of values once every input is fulfilled,
    pending otherwise. *)
Definition all (ps : list (Promise A)) : Promise (list A) :=
  match firstRejection ps with
  | Some (t, e) => Rejected t e
  | None =>
      match allFulfilled ps with
      | Some (t, vs) => Fulfilled t vs
      | None => Pending
      end
  end.

End Combinators.
End JsPromise.

Import JsPromise.

(** ** The data of a flightcheck run *)

Record ProjectRef := { project_id : string; project_name : string }.
Record ReleaseRef := { release_id : string }.
Record CycleRef := { cycle_id : string }.

Record Job := {
  repo : string;
  tag : string;
  project : ProjectRef;
  release : option ReleaseRef;
  cycle : CycleRef
}.

Record Issue := { title : string; body : string }.

(** What one hook resolves to. The two counters are counts. *)
Record PartialResult := {
  errors : N;
  warnings : N;
  information : gmap string JsValue;
  issue : option Issue
}.

(** The accumulator [obj] of the runner. *)
Record Obj := {
  obj_errors : N;
  obj_warnings : N;
  obj_information : gmap string JsValue;
  obj_issues : list Issue
}.

(** The package sent back: the identifiers of the job and the fields of
    the accumulator. *)
Record Report := {
  rep_cycle : string;
  rep_project : string;
  rep_release : option string;
  rep_errors : N;
  rep_warnings : N;
  rep_information : gmap string JsValue;
  rep_issues : list Issue
}.

(** A hook module: [new Hook(data).run()] either throws or returns a
    promise, whose instants count from the moment the hook is started. *)
Definition Hook : Type := Job -> Completion (Promise PartialResult).

(** The directory that [fsHelper.walk] walks: unreadable, or the modules it
    holds with their paths relative to the directory, in traversal order,
    read by instant [readAt]. *)
Inductive ModuleTree (M : Type) :=
| Unreadable (e : JsError)
| Modules (readAt : nat) (entries : list (string * M)).
Arguments Unreadable {M} e.
Arguments Modules {M} readAt entries.

(** ** The log and the bus *)

Inductive LogLevel := debug | info | warn | error.

Inductive LogPayload :=
| Text (msg : string)
| Thrown (e : JsError)
| Found (errs : N) (name : string).

Record LogEntry := { level : LogLevel; payload : LogPayload }.

Record Message := { destination : string; event : string; pkg : Report }.

Record World := { logged : list LogEntry; sent : list Message }.

Definition log (l : LogLevel) (p : LogPayload) (w : World) : World :=
  {| logged := logged w ++ [{| level := l; payload := p |}]; sent := sent w |}.

Definition send (dest ev : string) (r : Report) (w : World) : World :=
  {| logged := logged w;
     sent := sent w ++ [{| destination := dest; event := ev; pkg := r |}] |}.

(** ** flightcheck/index.js *)

Module Flightcheck.

(** The callback given to [fsHelper.walk] (lines 34-37). *)
Definition hookFilter (test path : string) : bool :=
  if (indexOf path "/" =? -1)%Z then false
  else negb (indexOf path (toLowerCase test ++ ".js") =? 0)%Z.

(** Modelled from the spec: [fsHelper.walk] of [lib/helpers/fs], which is
    not part of the sources at hand. It walks the module tree and keeps, in
    traversal order, the modules whose relative path the callback accepts;
    an unreadable root makes it fail with the discovery error. *)
Definition walk {M : Type} (tree : ModuleTree M) (filter : string -> bool)
  : Promise (list (string * M)) :=
  match tree with
  | Unreadable e => Rejected 0 e
  | Modules t entries => Fulfilled t (List.filter (fun pm => filter (fst pm)) entries)
  end.

(** [hooks.map((Hook) => new Hook(data).run())] (lines 38-40): the hooks
    are started one after the other; the first one that throws ends the
    loop. *)
Fixpoint startAll (data : Job) (hooks : list Hook)
  : Completion (list (Promise PartialResult)) :=
  match hooks with
  | [] => Normal []
  | h :: hooks' =>
      match h data with
      | Throw e => Throw e
      | Normal p =>
          match startAll data hooks' with
          | Throw e => Throw e
          | Normal ps => Normal (p :: ps)
          end
      end
  end.

(** [Object.assign(target, source)]: the entries of [source] are written
    over those of [target]. *)
Definition assign {V : Type} (target source : gmap string V) : gmap string V :=
  source ∪ target.

(** The body of the [for ... in] loop (lines 48-51). *)
Definition accumulate (obj : Obj) (r : PartialResult) : Obj :=
  {| obj_errors := errors r + obj_errors obj;
     obj_warnings := warnings r + obj_warnings obj;
     obj_information := assign (obj_information obj) (information r);
     obj_issues := match issue r with
                   | Some i => obj_issues obj ++ [i]
                   | None => obj_issues obj
                   end |}.

Definition emptyObj : Obj :=
  {| obj_errors := 0; obj_warnings := 0; obj_information := ∅; obj_issues := [] |}.

(** The first [then] handler (lines 44-55). Its argument is [undefined]
    ([None]) when the [catch] before it has run; [for (const i in
    undefined)] does not iterate. *)
Definition aggregate (pkg : option (list PartialResult)) : Obj :=
  match pkg with
  | None => emptyObj
  | Some results => fold_left accumulate results emptyObj
  end.

(** The second [then] handler (lines 56-62). *)
Definition stamp (data : Job) (obj : Obj) : Report :=
  {| rep_cycle := cycle_id (cycle data);
     rep_project := project_id (project data);
     rep_release := match release data with
                    | Some r => Some (release_id r)
                    | None => None
                    end;
     rep_errors := obj_errors obj;
     rep_warnings := obj_warnings obj;
     rep_information := obj_information obj;
     rep_issues := obj_issues obj |}.

(** [.catch((err) => log.error(err))] (line 43): a rejection is logged and
    replaced by a promise fulfilled with [undefined]. *)
Definition catchLog {A : Type} (p : Promise A) : list LogEntry * Promise (option A) :=
  match p with
  | Fulfilled t v => ([], Fulfilled t (Some v))
  | Rejected t e => ([{| level := error; payload := Thrown e |}], Fulfilled t None)
  | Pending => ([], Pending)
  end.

(** Lines 42-62: from the promises of the started hooks to the promise
    that [runHooks] returns, with what is logged on the way. *)
Definition finishRun (data : Job) (tests : list (Promise PartialResult))
  : list LogEntry * Promise Report :=
  let (entries, caught) := catchLog (all tests) in
  (entries, thenP (stamp data) (thenP aggregate caught)).

(** [runHooks(data, test)] over the module tree of the [flightcheck]
    directory. *)
Definition runHooks (tree : ModuleTree Hook) (data : Job) (test : string)
  : list LogEntry * Promise Report :=
  match walk tree (hookFilter test) with
  | Rejected t e => ([], Rejected t e)
  | Pending => ([], Pending)
  | Fulfilled t0 hooks =>
      match startAll data (List.map snd hooks) with
      | Throw e => ([], Rejected t0 e)
      | Normal tests =>
          let (entries, result) := finishRun data tests in
          (entries, delay t0 result)
      end
  end.

(** The handler of [cycle:start] (lines 71-85). *)
Definition onCycleStart (tree : ModuleTree Hook) (data : Job) (w : World) : World :=
  let name := project_name (project data) in
  let w1 := log debug (Text ("Starting flightcheck on " ++ name)) w in
  let (entries, result) := runHooks tree data "pre" in
  let w2 := {| logged := logged w1 ++ entries; sent := sent w1 |} in
  match result with
  | Fulfilled _ r =>
      log debug (Found (rep_errors r) name) (send "houston" "cycle:finished" r w2)
  | Rejected _ e =>
      log warn (Thrown e) (log warn (Text ("Error running tests for " ++ name)) w2)
  | Pending => w2
  end.

(** Discovery alone: the paths of the modules that [runHooks] starts. *)
Definition discover {M : Type} (tree : ModuleTree M) (test : string)
  : Promise (list string) :=
  thenP (List.map fst) (walk tree (hookFilter test)).

(** The selection rule in the words of the specification: the module is
    under a subdirectory and its file name, the path without the
    directories, begins with the lowercased phase followed by [.js]. *)
Definition specSelects (test path : string) : bool :=
  match List.rev (split "/" path) with
  | file :: _ :: _ => startsWith file (toLowerCase test ++ ".js")
  | _ => false
  end.

End Flightcheck.

Import Flightcheck.

(** ** [Number(string)] *)

Module JsNumberParse.

Definition digitValue (c : ascii) : option Z :=
  let n := nat_of_ascii c in
  if (48 <=? n)%nat && (n <=? 57)%nat then Some (Z.of_nat (n - 48)) else None.

Definition hexValue (c : ascii) : option Z :=
  let n := nat_of_ascii c in
  if (48 <=? n)%nat && (n <=? 57)%nat then Some (Z.of_nat (n - 48))
  else if (97 <=? n)%nat && (n <=? 102)%nat then Some (Z.of_nat (n - 87))
  else if (65 <=? n)%nat && (n <=? 70)%nat then Some (Z.of_nat (n - 55))
  else None.

(** The longest run of decimal digits at the head of [l], and the rest. *)
Fixpoint takeDigits (l : list ascii) : list Z * list ascii :=
  match l with
  | c :: l' =>
      match digitValue c with
      | Some d => let (ds, rest) := takeDigits l' in (d :: ds, rest)
      | None => ([], l)
      end
  | [] => ([], [])
  end.

Definition numeral (base : Z) (ds : list Z) : Z :=
  fold_left (fun acc d => acc * base + d)%Z ds 0%Z.

(** Every character of [l] is a digit of [base], and there is one. *)
Fixpoint radixDigits (base : Z) (l : list ascii) : option (list Z) :=
  match l with
  | [] => Some []
  | c :: l' =>
      match hexValue c, radixDigits base l' with
      | Some d, Some ds => if (d <? base)%Z then Some (d :: ds) else None
      | _, _ => None
      end
  end.

Definition radixLiteral (base : Z) (l : list ascii) : JsNumber :=
  match l, radixDigits base l with
  | _ :: _, Some ds => Dec (numeral base ds) 0
  | _, _ => NaN
  end.

Definition takeSign (l : list ascii) : bool * list ascii :=
  match l with
  | "-"%char :: l' => (true, l')
  | "+"%char :: l' => (false, l')
  | _ => (false, l)
  end.

Definition signed (negative : bool) (m : Z) : Z := if negative then (- m)%Z else m.

(** [ExponentPart] or nothing, up to the end of the literal. *)
Definition exponent (l : list ascii) : option Z :=
  match l with
  | [] => Some 0%Z
  | c :: l' =>
      if Ascii.eqb c "e" || Ascii.eqb c "E" then
        let (neg, l'') := takeSign l' in
        match takeDigits l'' with
        | ((_ :: _) as ds, []) => Some (signed neg (numeral 10 ds))
        | _ => None
        end
      else None
  end.

(** [StrUnsignedDecimalLiteral] other than [Infinity]. *)
Definition unsignedDecimal (l : list ascii) : option (Z * Z) :=
  let (ints, r1) := takeDigits l in
  let '(fracs, r2, dotted) :=
    match r1 with
    | "."%char :: r1' => let (fs, r) := takeDigits r1' in (fs, r, true)
    | _ => ([], r1, false)
    end in
  match ints, fracs with
  | [], [] => None
  | _, _ =>
      match exponent r2 with
      | Some e => Some (numeral 10 (ints ++ fracs), (e - Z.of_nat (List.length fracs))%Z)
      | None => None
      end
  end.

(** The prefix of a [NonDecimalIntegerLiteral]: its base and its digits. *)
Definition radixPrefix (l : list ascii) : option (Z * list ascii) :=
  match l with
  | c0 :: c :: l' =>
      if negb (Ascii.eqb c0 "0") then None
      else if Ascii.eqb c "x" || Ascii.eqb c "X" then Some (16%Z, l')
      else if Ascii.eqb c "o" || Ascii.eqb c "O" then Some (8%Z, l')
      else if Ascii.eqb c "b" || Ascii.eqb c "B" then Some (2%Z, l')
      else None
  | _ => None
  end.

(** [Number(s)] for a string [s]: white space is trimmed, the empty
    string is [0], a string that is not a numeric literal is [NaN]. *)
Definition Number (s : string) : JsNumber :=
  match list_ascii_of_string (trim s) with
  | [] => Dec 0 0
  | l =>
      match radixPrefix l with
      | Some (base, digits) => radixLiteral base digits
      | None =>
          let (neg, l') := takeSign l in
          if String.eqb (string_of_list_ascii l') "Infinity" then Infinity neg
          else match unsignedDecimal l' with
               | Some (m, e) => Dec (signed neg m) e
               | None => NaN
               end
      end
  end.

Definition isNaN (n : JsNumber) : bool :=
  match n with
  | NaN => true
  | _ => false
  end.

End JsNumberParse.

Import JsNumberParse.

(** ** The configuration store *)

Module Config.

(** Modelled from the spec: the [Config] class of [lib/config/index],
    which is not part of the sources at hand. A configuration maps
    dot-delimited paths to values; a merge gives precedence to the entries
    merged in; a frozen configuration admits no further mutation. *)
Record t := { tree : gmap string JsValue; immutable : bool }.

(** [new Config()] *)
Definition new : t := {| tree := ∅; immutable := false |}.

(** [config.set(key, value)] *)
Definition set (key : string) (value : JsValue) (config : t) : t :=
  if immutable config then config
  else {| tree := <[key := value]> (tree config); immutable := false |}.

(** [config.merge(obj)] *)
Definition merge (obj : gmap string JsValue) (config : t) : t :=
  if immutable config then config
  else {| tree := obj ∪ tree config; immutable := false |}.

(** [config.get('.')]: the whole tree. *)
Definition getAll (config : t) : gmap string JsValue := tree config.

(** [config.get(key)] for a path; [undefined] is [None]. *)
Definition get (key : string) (config : t) : option JsValue := tree config !! key.

(** [config.freeze()] *)
Definition freeze (config : t) : t := {| tree := tree config; immutable := true |}.

End Config.

(** ** src/lib/config/loader.ts *)

(** What the loader reads from the process and the file system. *)
Record Host := {
  (** [process.env], in the order of [Object.keys] *)
  env : list (string * string);
  (** the two [path.resolve]d entries of [configurationPaths] *)
  configurationPaths : list string;
  (** [path.resolve(process.cwd(), p)] *)
  resolveCwd : string -> string;
  (** [require('../../../package.json').version]; [Normal None] when the
      package has no version *)
  packageVersion : Completion (option string);
  gitCommitPath : string;
  gitChangePath : string;
  (** [fs.statSync(p).isFile()] *)
  statIsFile : string -> Completion bool;
  (** [fs.readFileSync(p, { encoding: 'utf8' })] *)
  readFileSync : string -> Completion string;
  (** [require(p)] of a configuration file: the object it exports *)
  requireFile : string -> Completion (gmap string JsValue)
}.

Module Loader.

Definition environmentPrefix : string := "HOUSTON".

(** [stringToDot] (lines 42-49) *)
Definition stringToDot (str : string) : string :=
  replace (join "." (splice1 (split "_" (toLowerCase str)))) "env" "environment".

(** [process.env[key]] *)
Fixpoint envLookup (vars : list (string * string)) (key : string) : option string :=
  match vars with
  | [] => None
  | (k, v) :: vars' => if String.eqb k key then Some v else envLookup vars' key
  end.

(** The body of the [forEach] over the keys of [process.env]
    (lines 61-71). *)
Definition environmentEntry (config : Config.t) (kv : string * string) : Config.t :=
  let (key, value) := kv in
  if startsWith key environmentPrefix then
    let name := stringToDot key in
    let numberValue := Number value in
    if negb (isNaN numberValue) then Config.set name (JNum numberValue) config
    else Config.set name (JStr value) config
  else config.

(** [getEnvironmentConfig] (lines 57-84) *)
Definition getEnvironmentConfig (h : Host) : Config.t :=
  let config := fold_left environmentEntry (env h) Config.new in
  let config := match envLookup (env h) "NODE_ENV" with
                | Some v => Config.set "environment" (JStr v) config
                | None => config
                end in
  let config := match envLookup (env h) "NODE_DEBUG" with
                | Some _ => Config.set "log.console" (JStr "debug") config
                | None => config
                end in
  Config.freeze config.

(** An element of a destructured array; [undefined] past its end. *)
Definition element (arr : list string) (i : nat) : JsValue :=
  match nth_error arr i with
  | Some s => JStr s
  | None => JUndefined
  end.

(** A [try] block that reads a git file when it is a regular file
    (lines 107-118 and 120-131); any exception leaves [config] as it is. *)
Definition setFromFile (h : Host) (path key : string) (config : Config.t) : Config.t :=
  match statIsFile h path with
  | Normal true =>
      match readFileSync h path with
      | Normal content => Config.set key (JStr (trim content)) config
      | Throw _ => config
      end
  | _ => config
  end.

(** [getProgramConfig] (lines 93-134) *)
Definition getProgramConfig (h : Host) : Config.t :=
  let config := Config.new in
  let config :=
    match packageVersion h with
    | Normal (Some version) =>
        let parts := split "." (hd "" (split "-" version)) in
        Config.set "houston.patch" (element parts 2)
          (Config.set "houston.minor" (element parts 1)
            (Config.set "houston.major" (element parts 0)
              (Config.set "houston.version" (JStr version) config)))
    | _ => config
    end in
  let config := setFromFile h (gitCommitPath h) "houston.commit" config in
  let config := setFromFile h (gitChangePath h) "houston.change" config in
  Config.freeze config.

(** The search of the well-known paths (lines 158-165): the first path
    that is a regular file and can be required gives the file; an
    exception on a path moves on to the next one. *)
Fixpoint searchPaths (h : Host) (paths : list string) : gmap string JsValue :=
  match paths with
  | [] => ∅
  | possible :: paths' =>
      match statIsFile h possible with
      | Normal true =>
          match requireFile h possible with
          | Normal file => file
          | Throw _ => searchPaths h paths'
          end
      | _ => searchPaths h paths'
      end
  end.

(** [getFileConfig] (lines 145-171) *)
Definition getFileConfig (h : Host) (p : option string) : Completion Config.t :=
  let file :=
    match p with
    | Some p' =>
        if startsWith p' "/" then requireFile h p'
        else requireFile h (resolveCwd h p')
    | None => Normal (searchPaths h (configurationPaths h))
    end in
  match file with
  | Normal file' => Normal (Config.freeze (Config.merge file' Config.new))
  | Throw e => Throw e
  end.

(** [getConfig] (lines 182-194) *)
Definition getConfig (h : Host) (p : option string) : Completion Config.t :=
  let environment := getEnvironmentConfig h in
  let program := getProgramConfig h in
  match getFileConfig h p with
  | Throw e => Throw e
  | Normal file =>
      Normal (Config.freeze
                (Config.merge (Config.getAll environment)
                   (Config.merge (Config.getAll file)
                      (Config.merge (Config.getAll program) Config.new))))
  end.

(** The transform in the words of the specification: the prefix segment
    is removed, the name is lowercased, a segment that is literally [env]
    is renamed to [environment], and the segments are joined with dots. *)
Definition renameSegment (seg : string) : string :=
  if String.eqb seg "env" then "environment" else seg.

Definition specPath (name : string) : string :=
  join "." (List.map renameSegment (splice1 (split "_" (toLowerCase name)))).

End Loader.

Import Loader.

(** * The statements of the specification *)

Module Spec.

(** The sum of a sequence of counters. *)
Definition sum (l : list N) : N := fold_right N.add 0%N l.

(** The entry of [key] in the last-write-wins merge of the information
    maps of [results]: the entry of the last result that has one. *)
Fixpoint lastWrite (key : string) (results : list PartialResult) : option JsValue :=
  match results with
  | [] => None
  | r :: results' =>
      match lastWrite key results' with
      | Some v => Some v
      | None => information r !! key
      end
  end.

(** A failure during a run triggered by [cycle:start]: discovery fails, a
    hook throws while the hooks are constructed and started, or the
    promise of a started hook rejects. *)
Inductive RunFailure (tree : ModuleTree Hook) (data : Job) : Prop :=
| DiscoveryFails (t : nat) (e : JsError) :
    walk tree (hookFilter "pre") = Rejected t e -> RunFailure tree data
| HookThrows (t : nat) (hooks : list (string * Hook)) (e : JsError) :
    walk tree (hookFilter "pre") = Fulfilled t hooks ->
    startAll data (List.map snd hooks) = Throw e -> RunFailure tree data
| HookRejects (t : nat) (hooks : list (string * Hook))
    (tests : list (Promise PartialResult)) (tr : nat) (e : JsError) :
    walk tree (hookFilter "pre") = Fulfilled t hooks ->
    startAll data (List.map snd hooks) = Normal tests ->
    In (Rejected tr e) tests -> RunFailure tree data.

(** The runner is a barrier over [tests]: when its result is there, every
    promise of [tests] has settled. *)
Definition Barrier (data : Job) (tests : list (Promise PartialResult)) : Prop :=
  forall t r, snd (finishRun data tests) = Fulfilled t r ->
  forall p, In p tests -> exists tp, settledAt p = Some tp /\ tp <= t.

End Spec.

(** The value that the loop of [getEnvironmentConfig] stores for a variable
    of value [value]: the number it reads as when there is one, the string
    otherwise. *)
Definition storedValue (value : string) : JsValue :=
  if isNaN (Number value) then JStr value else JNum (Number value).

(** * Sample inputs *)

(** A tree of the shape of the [flightcheck] directory. *)
Definition sampleTree : ModuleTree unit :=
  Modules 0 [("index.js", tt); ("appdata/pre.js", tt);
             ("appdata/post.js", tt); ("pre.js/extra.js", tt)].

Definition sampleJob : Job :=
  {| repo := "git@host:org/app.git"; tag := "master";
     project := {| project_id := "p1"; project_name := "App" |};
     release := None;
     cycle := {| cycle_id := "c1" |} |}.

Definition emptyWorld : World := {| logged := []; sent := [] |}.

Definition lintResult : PartialResult :=
  {| errors := 1; warnings := 0;
     information := {[ "lintOk" := JBool false ]};
     issue := Some {| title := "Lint failed"; body := "..." |} |}.

Definition sizeResult : PartialResult :=
  {| errors := 0; warnings := 2;
     information := {[ "sizeKb" := JNum (Dec 500 0) ]};
     issue := None |}.

(** Hooks that fulfil, reject and throw. *)
Definition lintHook : Hook := fun _ => Normal (Fulfilled 3 lintResult).
Definition sizeHook : Hook := fun _ => Normal (Fulfilled 5 sizeResult).
Definition rejectingHook : Hook := fun _ => Normal (Rejected 1 (Error "hook failed")).
Definition throwingHook : Hook := fun _ => Throw (Error "cannot construct").

(** The promises of started hooks. *)
Definition stalledTests : list (Promise PartialResult) :=
  [Fulfilled 3 lintResult; Pending].

Definition abandonedTests : list (Promise PartialResult) :=
  [Rejected 1 (Error "hook failed"); Pending].

Definition healthyTree : ModuleTree Hook :=
  Modules 2 [("lint/pre.js", lintHook); ("size/pre.js", sizeHook)].

Definition rejectingTree : ModuleTree Hook :=
  Modules 2 [("lint/pre.js", rejectingHook); ("size/pre.js", sizeHook)].

Definition throwingTree : ModuleTree Hook :=
  Modules 2 [("lint/pre.js", lintHook); ("size/pre.js", throwingHook)].

Definition unreadableTree : ModuleTree Hook := Unreadable (Error "ENOENT").

(** A host with one configuration file and prefixed variables. *)
Definition sampleHost : Host :=
  {| env := [("PATH", "/usr/bin"); ("HOUSTON_LOG_LEVEL", "debug");
             ("HOUSTON_SERVER_PORT", "")];
     configurationPaths := ["/srv/houston/config.js"; "/etc/houston/config.js"];
     resolveCwd := fun p => "/srv/houston/" ++ p;
     packageVersion := Normal (Some "0.4.2-beta");
     gitCommitPath := "/srv/houston/.git/ORIG_HEAD";
     gitChangePath := "/srv/houston/.git/COMMIT_EDITMSG";
     statIsFile := fun p =>
       if String.eqb p "/etc/houston/config.js" then Normal true
       else Throw (Error "ENOENT");
     readFileSync := fun _ => Throw (Error "ENOENT");
     requireFile := fun p =>
       if String.eqb p "/etc/houston/config.js"
       then Normal {[ "log.level" := JStr "info"; "server.url" := JStr "http://localhost" ]}
       else Throw (Error "Cannot find module") |}.

(** The same host without any configuration file. *)
Definition bareHost : Host :=
  {| env := env sampleHost;
     configurationPaths := configurationPaths sampleHost;
     resolveCwd := resolveCwd sampleHost;
     packageVersion := packageVersion sampleHost;
     gitCommitPath := gitCommitPath sampleHost;
     gitChangePath := gitChangePath sampleHost;
     statIsFile := fun _ => Throw (Error "ENOENT");
     readFileSync := readFileSync sampleHost;
     requireFile := fun _ => Throw (Error "Cannot find module") |}.

(** A hook that never settles, and trees around it. *)
Definition stallingHook : Hook := fun _ => Normal Pending.

Definition stalledTree : ModuleTree Hook :=
  Modules 2 [("lint/pre.js", lintHook); ("size/pre.js", stallingHook)].

(** A tree whose modules are all at its root. *)
Definition rootOnlyTree : ModuleTree Hook :=
  Modules 4 [("index.js", throwingHook); ("hook.js", rejectingHook)].

(** Two results that write the same key. *)
Definition firstWriter : PartialResult :=
  {| errors := 2; warnings := 1;
     information := {[ "license" := JStr "unknown" ]};
     issue := Some {| title := "No license"; body := "Add one" |} |}.

Definition secondWriter : PartialResult :=
  {| errors := 0; warnings := 3;
     information := {[ "license" := JStr "GPL-3.0" ]};
     issue := None |}.

(** The character [c] occurs in [s]. *)
Fixpoint hasChar (c : ascii) (s : string) : bool :=
  match s with
  | EmptyString => false
  | String d s' => Ascii.eqb d c || hasChar c s'
  end.


(** A host whose environment has the two special variables, and two
    configuration files of which the first cannot be loaded. *)
Definition specialHost : Host :=
  {| env := [("HOUSTON_ENV", "production"); ("NODE_ENV", "7");
             ("HOUSTONIA_LOG_CONSOLE", "silly"); ("NODE_DEBUG", "");
             ("HOUSTON", "  "); ("HOME", "/root")];
     configurationPaths := ["/srv/houston/config.js"; "/etc/houston/config.js"];
     resolveCwd := fun p => "/srv/houston/" ++ p;
     packageVersion := Normal (Some "0.4.2-beta");
     gitCommitPath := "/srv/houston/.git/ORIG_HEAD";
     gitChangePath := "/srv/houston/.git/COMMIT_EDITMSG";
     statIsFile := fun p =>
       if String.eqb p "/srv/houston/.git/COMMIT_EDITMSG" then Throw (Error "ENOENT")
       else Normal true;
     readFileSync := fun p =>
       if String.eqb p "/srv/houston/.git/ORIG_HEAD"
       then Normal (String "032" ("3f2a9c1" ++ String "010" ""))
       else Throw (Error "EACCES");
     requireFile := fun p =>
       if String.eqb p "/etc/houston/config.js"
       then Normal {[ "log.level" := JStr "info"; "houston.version" := JStr "9.9.9" ]}
       else Throw (Error "Cannot find module") |}.

(** A host whose package has a version of one part and whose git files are
    not regular files. *)
Definition plainHost : Host :=
  {| env := [];
     configurationPaths := configurationPaths sampleHost;
     resolveCwd := resolveCwd sampleHost;
     packageVersion := Normal (Some "7");
     gitCommitPath := gitCommitPath sampleHost;
     gitChangePath := gitChangePath sampleHost;
     statIsFile := fun _ => Normal false;
     readFileSync := fun _ => Normal "unread";
     requireFile := fun _ => Throw (Error "Cannot find module") |}.

(** A host on which an empty prefixed variable and [NODE_ENV] meet on the
    path [environment]. *)
Definition overriddenHost : Host :=
  {| env := [("HOUSTON_ENV", ""); ("NODE_ENV", "production")];
     configurationPaths := configurationPaths sampleHost;
     resolveCwd := resolveCwd sampleHost;
     packageVersion := packageVersion sampleHost;
     gitCommitPath := gitCommitPath sampleHost;
     gitChangePath := gitChangePath sampleHost;
     statIsFile := fun _ => Throw (Error "ENOENT");
     readFileSync := readFileSync sampleHost;
     requireFile := fun _ => Throw (Error "Cannot find module") |}.

(** * Properties *)

(** ** The string primitives on sample inputs *)

Example toLowerCase_sample : toLowerCase "HOUSTON_Log" = "houston_log".
Proof. reflexivity. Qed.

Example indexOf_sample :
  indexOf "appdata/pre.js" "/" = 7%Z /\ indexOf "index.js" "/" = (-1)%Z
  /\ indexOf "pre.js" "pre.js" = 0%Z.
Proof. repeat split. Qed.

Example split_sample :
  split "_" "a__b_" = ["a"; ""; "b"; ""] /\ split "_" "" = [""].
Proof. split; reflexivity. Qed.

Example replace_sample :
  replace "env.env" "env" "environment" = "environment.env".
Proof. reflexivity. Qed.

Example trim_sample : trim (String "009" "  a b " ++ String "010" "") = "a b".
Proof. reflexivity. Qed.

Example Number_sample :
  List.map Number [""; " 12 "; "-3.50"; "1e3"; "0x1F"; "Infinity"; "abc"; "1 2"]
  = [Dec 0 0; Dec 12 0; Dec (-350) (-2); Dec 1 3; Dec 31 0; Infinity false; NaN; NaN].
Proof. reflexivity. Qed.

(** ** [indexOf] *)

Lemma indexOfFrom_range (hay needle : string) (k : Z) :
  indexOfFrom k hay needle = (-1)%Z \/ (k <= indexOfFrom k hay needle)%Z.
Proof.
  revert k. induction hay as [|c hay IH]; intros k; cbn [indexOfFrom].
  - destruct (String.prefix needle ""); [right; lia | left; reflexivity].
  - destruct (String.prefix needle (String c hay)); [right; lia |].
    destruct (IH (k + 1)%Z) as [H | H]; [left; exact H | right; lia].
Qed.

(** [hay.indexOf(needle) === 0] says that [hay] begins with [needle]. *)
Lemma indexOf_zero_prefix (hay needle : string) :
  indexOf hay needle = 0%Z <-> String.prefix needle hay = true.
Proof.
  unfold indexOf. destruct hay as [|c hay]; cbn [indexOfFrom].
  - destruct (String.prefix needle ""); split; intros H; try reflexivity; discriminate.
  - destruct (String.prefix needle (String c hay)).
    + split; reflexivity.
    + split; [| discriminate]. intros H.
      destruct (indexOfFrom_range hay needle (0 + 1)) as [H1 | H1]; lia.
Qed.

(** What the callback of [runHooks] accepts: a path that holds a [/] and
    does not begin with the lowercased phase followed by [.js]. *)
Lemma hookFilter_spec (test path : string) :
  hookFilter test path = true <->
  indexOf path "/" <> (-1)%Z /\
  String.prefix (toLowerCase test ++ ".js") path = false.
Proof.
  unfold hookFilter.
  destruct (Z.eqb_spec (indexOf path "/") (-1)) as [Hs | Hs].
  - split; [discriminate | intros [H _]; contradiction].
  - destruct (Z.eqb_spec (indexOf path (toLowerCase test ++ ".js")) 0) as [Hp | Hp]; simpl.
    + apply indexOf_zero_prefix in Hp. split; [discriminate |].
      intros [_ H]. congruence.
    + split; [| reflexivity]. intros _. split; [exact Hs |].
      destruct (String.prefix (toLowerCase test ++ ".js") path) eqn:E; [| reflexivity].
      apply indexOf_zero_prefix in E. contradiction.
Qed.

(** A module directly at the root of the tree is never accepted. *)
Lemma hookFilter_root (test path : string) :
  indexOf path "/" = (-1)%Z -> hookFilter test path = false.
Proof. intros H. unfold hookFilter. rewrite H. reflexivity. Qed.

(** The modules of a readable tree that discovery returns are those the
    callback accepts, in traversal order. *)
Lemma discover_readable {M : Type} (t : nat) (entries : list (string * M)) (test : string) :
  discover (Modules t entries) test
  = Fulfilled t (List.filter (hookFilter test) (List.map fst entries)).
Proof.
  unfold discover, walk, thenP. f_equal.
  induction entries as [|[path m] entries IH]; simpl; [reflexivity |].
  destruct (hookFilter test path); simpl; rewrite IH; reflexivity.
Qed.

(** C1: discovery does not select by the file name of the module. On a tree
    that holds [appdata/pre.js] and [appdata/post.js], the phase [pre]
    returns both: the callback compares the position of [pre.js] in the whole
    relative path with 0, which only rejects a path that begins with
    [pre.js], so its answer is the same on the two paths. The rule of the
    specification selects [appdata/pre.js] alone. The root module [index.js]
    is left out by both. *)
Theorem discover_ignores_phase :
  discover sampleTree "pre" = Fulfilled 0 ["appdata/pre.js"; "appdata/post.js"]
  /\ List.filter (specSelects "pre")
       ["index.js"; "appdata/pre.js"; "appdata/post.js"; "pre.js/extra.js"]
     = ["appdata/pre.js"]
  /\ hookFilter "pre" "appdata/post.js" = true
  /\ hookFilter "pre" "appdata/pre.js" = hookFilter "pre" "appdata/post.js"
  /\ specSelects "pre" "appdata/post.js" = false.
Proof. repeat split. Qed.

(** ** The aggregator *)

Import Spec.

Section Aggregation.

Lemma fold_accumulate_errors (results : list PartialResult) (obj : Obj) :
  obj_errors (fold_left accumulate results obj)
  = (sum (List.map errors results) + obj_errors obj)%N.
Proof.
  revert obj. induction results as [|r results IH]; intros obj; simpl.
  - reflexivity.
  - rewrite IH. simpl. lia.
Qed.

Lemma fold_accumulate_warnings (results : list PartialResult) (obj : Obj) :
  obj_warnings (fold_left accumulate results obj)
  = (sum (List.map warnings results) + obj_warnings obj)%N.
Proof.
  revert obj. induction results as [|r results IH]; intros obj; simpl.
  - reflexivity.
  - rewrite IH. simpl. lia.
Qed.

(** After the loop, a key holds the entry of the last result that has
    it, and what the accumulator held before when no result has it. *)
Lemma fold_accumulate_information (key : string) (results : list PartialResult) (obj : Obj) :
  obj_information (fold_left accumulate results obj) !! key
  = match lastWrite key results with
    | Some v => Some v
    | None => obj_information obj !! key
    end.
Proof.
  revert obj. induction results as [|r results IH]; intros obj; simpl.
  - reflexivity.
  - rewrite IH. destruct (lastWrite key results); [reflexivity |].
    simpl. unfold assign. rewrite lookup_union.
    destruct (information r !! key), (obj_information obj !! key); reflexivity.
Qed.

(** The issues are collected in sequence order, the null ones left out. *)
Lemma fold_accumulate_issues (results : list PartialResult) (obj : Obj) :
  obj_issues (fold_left accumulate results obj)
  = (obj_issues obj ++ omap issue results)%list.
Proof.
  revert obj. induction results as [|r results IH]; intros obj; simpl.
  - rewrite app_nil_r. reflexivity.
  - rewrite IH. simpl. destruct (issue r); simpl.
    + rewrite <- app_assoc. reflexivity.
    + reflexivity.
Qed.

End Aggregation.

(** ** [Promise.all] *)

Section PromiseAll.
Context {A : Type}.
Implicit Types ps : list (Promise A).

Lemma firstRejection_none ps :
  firstRejection ps = None -> forall t e, ~ In (Rejected t e) ps.
Proof.
  induction ps as [|p ps IH]; intros H t e Hin; [destruct Hin |].
  simpl in H. destruct p as [tp v | tp ep |].
  - destruct Hin as [Heq | Hin]; [discriminate | exact (IH H _ _ Hin)].
  - destruct (firstRejection ps) as [[t1 e1] |];
      [destruct (tp <=? t1)%nat |]; discriminate.
  - destruct Hin as [Heq | Hin]; [discriminate | exact (IH H _ _ Hin)].
Qed.

(** The rejection that [Promise.all] reports is one of the inputs and no
    input is rejected before it. *)
Lemma firstRejection_earliest ps t e :
  firstRejection ps = Some (t, e) ->
  In (Rejected t e) ps /\ forall t' e', In (Rejected t' e') ps -> t <= t'.
Proof.
  revert t e. induction ps as [|p ps IH]; intros t e H; simpl in H.
  - discriminate.
  - destruct p as [tp v | tp ep |].
    + destruct (IH _ _ H) as [Hin Hle]. split; [right; exact Hin |].
      intros t' e' [Heq | Hin']; [discriminate | eauto].
    + destruct (firstRejection ps) as [[t1 e1] |] eqn:E.
      * destruct (IH _ _ eq_refl) as [Hin Hle].
        destruct (Nat.leb_spec tp t1) as [Hc | Hc]; inversion H; subst; clear H.
        -- split; [left; reflexivity |].
           intros t' e' [Heq | Hin']; [inversion Heq; lia |].
           specialize (Hle _ _ Hin'). lia.
        -- split; [right; exact Hin |].
           intros t' e' [Heq | Hin']; [inversion Heq; lia | eauto].
      * inversion H; subst; clear H. split; [left; reflexivity |].
        intros t' e' [Heq | Hin']; [inversion Heq; lia |].
        exfalso. exact (firstRejection_none ps E _ _ Hin').
    + destruct (IH _ _ H) as [Hin Hle]. split; [right; exact Hin |].
      intros t' e' [Heq | Hin']; [discriminate | eauto].
Qed.

Lemma firstRejection_some ps t e :
  In (Rejected t e) ps -> exists t0 e0, firstRejection ps = Some (t0, e0).
Proof.
  intros Hin. destruct (firstRejection ps) as [[t0 e0] |] eqn:E.
  - eauto.
  - exfalso. exact (firstRejection_none ps E _ _ Hin).
Qed.

(** When every input is fulfilled, [allFulfilled] gives the values and an
    instant by which every input has settled. *)
Lemma allFulfilled_total ps :
  Forall (fun p => exists t v, p = Fulfilled t v) ps ->
  exists t vs, allFulfilled ps = Some (t, vs).
Proof.
  induction 1 as [|p ps [tp [v ->]] _ [t [vs IH]]]; simpl.
  - eauto.
  - rewrite IH. eauto.
Qed.

Lemma allFulfilled_settled ps t vs :
  allFulfilled ps = Some (t, vs) ->
  firstRejection ps = None /\
  forall p, In p ps -> exists tp, settledAt p = Some tp /\ tp <= t.
Proof.
  revert t vs. induction ps as [|p ps IH]; intros t vs H; simpl in H.
  - split; [reflexivity | intros p []].
  - destruct p as [tp v | |]; try discriminate.
    destruct (allFulfilled ps) as [[t1 vs1] |]; [| discriminate].
    inversion H; subst; clear H.
    destruct (IH _ _ eq_refl) as [Hrej Hset]. split.
    + simpl. rewrite Hrej. reflexivity.
    + intros p [<- | Hin].
      * exists tp. simpl. split; [reflexivity | lia].
      * destruct (Hset _ Hin) as [tq [Hq Hle]]. exists tq. split; [exact Hq | lia].
Qed.

(** With no rejection and an input that never settles, nothing is
    gathered. *)
Lemma allFulfilled_pending ps :
  In Pending ps -> allFulfilled ps = None.
Proof.
  induction ps as [|p ps IH]; intros Hin; [destruct Hin |].
  simpl. destruct Hin as [-> | Hin]; [reflexivity |].
  destruct p; try reflexivity. rewrite (IH Hin). reflexivity.
Qed.

End PromiseAll.

(** ** The runner *)

Section Runner.
Variable data : Job.
Implicit Types tests : list (Promise PartialResult).

(** The report of a run in which nothing was gathered. *)
Lemma stamp_empty :
  stamp data (aggregate None) = stamp data (aggregate (Some []))
  /\ aggregate (Some []) = emptyObj.
Proof. split; reflexivity. Qed.

Lemma finishRun_rejected tests t e :
  firstRejection tests = Some (t, e) ->
  finishRun data tests
  = ([{| level := error; payload := Thrown e |}],
     Fulfilled t (stamp data emptyObj)).
Proof. intros H. unfold finishRun, all. rewrite H. reflexivity. Qed.

Lemma finishRun_fulfilled tests t results :
  allFulfilled tests = Some (t, results) ->
  finishRun data tests
  = ([], Fulfilled t (stamp data (aggregate (Some results)))).
Proof.
  intros H. unfold finishRun, all.
  destruct (allFulfilled_settled _ _ _ H) as [-> _]. rewrite H. reflexivity.
Qed.

Lemma finishRun_pending tests :
  firstRejection tests = None -> allFulfilled tests = None ->
  finishRun data tests = ([], Pending).
Proof. intros H1 H2. unfold finishRun, all. rewrite H1, H2. reflexivity. Qed.

End Runner.

(** The end-to-end scenario of the specification: two [pre] hooks, one
    report published. *)
Example onCycleStart_healthy :
  sent (onCycleStart healthyTree sampleJob emptyWorld)
  = [{| destination := "houston"; event := "cycle:finished";
        pkg := {| rep_cycle := "c1"; rep_project := "p1"; rep_release := None;
                  rep_errors := 1; rep_warnings := 2;
                  rep_information :=
                    {[ "lintOk" := JBool false; "sizeKb" := JNum (Dec 500 0) ]};
                  rep_issues := [{| title := "Lint failed"; body := "..." |}] |} |}].
Proof. vm_compute. reflexivity. Qed.

Example runHooks_healthy_instant :
  settledAt (snd (runHooks healthyTree sampleJob "pre")) = Some 7.
Proof. reflexivity. Qed.

(** The promises [tests] are all fulfilled, with the values [results] in
    array order. *)
Lemma allFulfilled_values (tests : list (Promise PartialResult)) (results : list PartialResult) :
  Forall2 (fun p r => exists t, p = Fulfilled t r) tests results ->
  exists t, allFulfilled tests = Some (t, results).
Proof.
  induction 1 as [|p r tests results [tp ->] _ [t IH]]; simpl.
  - eauto.
  - rewrite IH. eauto.
Qed.

(** A run whose hooks were started and in which a promise rejects. *)
Lemma runHooks_rejected
    (tree : ModuleTree Hook) (data : Job) (test : string)
    (t0 : nat) (hooks : list (string * Hook)) (tests : list (Promise PartialResult)) :
  walk tree (hookFilter test) = Fulfilled t0 hooks ->
  startAll data (List.map snd hooks) = Normal tests ->
  (exists t e, In (Rejected t e) tests) ->
  exists t e,
    runHooks tree data test
    = ([{| level := error; payload := Thrown e |}],
       Fulfilled (t0 + t) (stamp data emptyObj)).
Proof.
  intros Hwalk Hstart (t1 & e1 & Hin).
  destruct (firstRejection_some _ _ _ Hin) as (t & e & Hfirst).
  exists t, e. unfold runHooks. rewrite Hwalk, Hstart.
  rewrite (finishRun_rejected data _ _ _ Hfirst). reflexivity.
Qed.

(** C3: when the hooks of a run have been started and the promise of at
    least one of them rejects, [runHooks] still resolves, with the aggregate
    of an empty sequence of partial results (errors 0, warnings 0, no
    information, no issues) stamped with the identifiers of the job; the
    rejection, the earliest one, is logged and nothing else is. *)
Theorem rejection_collapses_to_empty
    (tree : ModuleTree Hook) (data : Job) (test : string)
    (t0 : nat) (hooks : list (string * Hook)) (tests : list (Promise PartialResult)) :
  walk tree (hookFilter test) = Fulfilled t0 hooks ->
  startAll data (List.map snd hooks) = Normal tests ->
  (exists t e, In (Rejected t e) tests) ->
  exists t e,
    In (Rejected t e) tests /\
    runHooks tree data test
    = ([{| level := error; payload := Thrown e |}],
       Fulfilled (t0 + t) (stamp data (aggregate (Some [])))) /\
    stamp data (aggregate (Some []))
    = {| rep_cycle := cycle_id (cycle data);
         rep_project := project_id (project data);
         rep_release := release_id <$> release data;
         rep_errors := 0; rep_warnings := 0;
         rep_information := ∅; rep_issues := [] |}.
Proof.
  intros Hwalk Hstart (t1 & e1 & Hin).
  destruct (firstRejection_some _ _ _ Hin) as (t & e & Hfirst).
  exists t, e. split; [exact (proj1 (firstRejection_earliest _ _ _ Hfirst)) |].
  split.
  - unfold runHooks. rewrite Hwalk, Hstart.
    rewrite (finishRun_rejected data _ _ _ Hfirst). reflexivity.
  - unfold stamp. simpl. destruct (release data); reflexivity.
Qed.

Lemma rejection_collapses_to_empty_witness :
  exists t e,
    In (Rejected t e) [Rejected 1 (Error "hook failed"); Fulfilled 5 sizeResult] /\
    runHooks rejectingTree sampleJob "pre"
    = ([{| level := error; payload := Thrown e |}],
       Fulfilled (2 + t) (stamp sampleJob (aggregate (Some [])))) /\
    stamp sampleJob (aggregate (Some []))
    = {| rep_cycle := "c1"; rep_project := "p1"; rep_release := None;
         rep_errors := 0; rep_warnings := 0;
         rep_information := ∅; rep_issues := [] |}.
Proof.
  apply (rejection_collapses_to_empty rejectingTree sampleJob "pre" 2
           [("lint/pre.js", rejectingHook); ("size/pre.js", sizeHook)]
           [Rejected 1 (Error "hook failed"); Fulfilled 5 sizeResult]).
  - reflexivity.
  - reflexivity.
  - exists 1, (Error "hook failed"). simpl. left. reflexivity.
Defined.

(** C5: when the promises of the started hooks are all fulfilled, with the
    non-empty sequence [results] of partial results, the report that the
    runner resolves with has for [errors] the sum of the [errors] of the
    results and for [warnings] the sum of their [warnings]. (The sums are
    also right for the empty sequence.) *)
Theorem aggregate_sums_counters
    (data : Job) (tests : list (Promise PartialResult)) (results : list PartialResult) :
  Forall2 (fun p r => exists t, p = Fulfilled t r) tests results ->
  results <> [] ->
  exists t report,
    finishRun data tests = ([], Fulfilled t report) /\
    rep_errors report = sum (List.map errors results) /\
    rep_warnings report = sum (List.map warnings results).
Proof.
  intros Hall _. destruct (allFulfilled_values _ _ Hall) as [t Ht].
  exists t, (stamp data (aggregate (Some results))).
  split; [exact (finishRun_fulfilled data _ _ _ Ht) |].
  simpl. rewrite fold_accumulate_errors, fold_accumulate_warnings.
  simpl. split; lia.
Qed.

Lemma aggregate_sums_counters_witness :
  exists t report,
    finishRun sampleJob [Fulfilled 3 lintResult; Fulfilled 5 sizeResult]
    = ([], Fulfilled t report) /\
    rep_errors report = sum (List.map errors [lintResult; sizeResult]) /\
    rep_warnings report = sum (List.map warnings [lintResult; sizeResult]).
Proof.
  apply (aggregate_sums_counters sampleJob
           [Fulfilled 3 lintResult; Fulfilled 5 sizeResult] [lintResult; sizeResult]).
  - repeat constructor; eexists; reflexivity.
  - discriminate.
Defined.

(** C6: the information map of the aggregate report is the last-write-wins
    merge of the information maps of the results in sequence order: a key
    holds the entry of the last result of the sequence that has it, so the
    entry of a later result replaces that of an earlier one. *)
Theorem information_last_write_wins
    (data : Job) (results : list PartialResult) (key : string) :
  rep_information (stamp data (aggregate (Some results))) !! key
  = lastWrite key results.
Proof.
  simpl. rewrite fold_accumulate_information.
  destruct (lastWrite key results); [reflexivity | apply lookup_empty].
Qed.

(** The case of the specification: [{a:1}] then [{a:2, b:3}] gives
    [{a:2, b:3}]. *)
Example information_collision :
  rep_information
    (stamp sampleJob
       (aggregate (Some [ {| errors := 0; warnings := 0;
                             information := {[ "a" := JNum (Dec 1 0) ]};
                             issue := None |};
                          {| errors := 0; warnings := 0;
                             information := {[ "a" := JNum (Dec 2 0);
                                               "b" := JNum (Dec 3 0) ]};
                             issue := None |} ])))
  = {[ "a" := JNum (Dec 2 0); "b" := JNum (Dec 3 0) ]}.
Proof. vm_compute. reflexivity. Qed.

(** A later result with an entry for [key] always replaces what the earlier
    results had. *)
Lemma information_later_overwrites
    (data : Job) (earlier : list PartialResult) (r : PartialResult)
    (key : string) (v : JsValue) :
  information r !! key = Some v ->
  rep_information (stamp data (aggregate (Some (earlier ++ [r])%list))) !! key = Some v.
Proof.
  intros H. simpl. rewrite fold_left_app. simpl. unfold assign.
  rewrite lookup_union, H.
  destruct (obj_information (fold_left accumulate earlier emptyObj) !! key); reflexivity.
Qed.

(** ** The barrier *)

(** C4, as stated, fails: with a hook that rejects at instant 1 and a hook
    that is fulfilled at instant 5, the runner has its result at instant 1,
    before the second hook has settled. *)
Lemma runner_not_a_barrier :
  ~ Barrier sampleJob [Rejected 1 (Error "hook failed"); Fulfilled 5 sizeResult].
Proof.
  intros H.
  destruct (H 1 _ eq_refl (Fulfilled 5 sizeResult)) as [tp [Hs Hle]].
  - simpl. right. left. reflexivity.
  - simpl in Hs. inversion Hs; subst. lia.
Qed.

(** C4, amended: when every started hook is fulfilled, the runner has its
    result at an instant by which all of them have settled; when none rejects
    and one never settles, the runner never has a result; when one rejects,
    the runner has its result at the instant of the earliest rejection,
    whatever the state of the other hooks. *)
Theorem runner_waits_unless_rejected
    (data : Job) (tests : list (Promise PartialResult)) :
  (Forall (fun p => exists t v, p = Fulfilled t v) tests ->
   exists t report,
     snd (finishRun data tests) = Fulfilled t report /\
     forall p, In p tests -> exists tp, settledAt p = Some tp /\ tp <= t)
  /\
  ((forall t e, ~ In (Rejected t e) tests) -> In Pending tests ->
   snd (finishRun data tests) = Pending)
  /\
  ((exists t e, In (Rejected t e) tests) ->
   exists t e report,
     In (Rejected t e) tests /\
     snd (finishRun data tests) = Fulfilled t report /\
     forall t' e', In (Rejected t' e') tests -> t <= t').
Proof.
  split; [| split].
  - intros Hall. destruct (allFulfilled_total _ Hall) as (t & results & Ht).
    exists t, (stamp data (aggregate (Some results))). split.
    + rewrite (finishRun_fulfilled data _ _ _ Ht). reflexivity.
    + exact (proj2 (allFulfilled_settled _ _ _ Ht)).
  - intros Hnone Hpending.
    rewrite (finishRun_pending data tests); [reflexivity | |].
    + destruct (firstRejection tests) as [[t e] |] eqn:E; [| reflexivity].
      exfalso. exact (Hnone _ _ (proj1 (firstRejection_earliest _ _ _ E))).
    + exact (allFulfilled_pending _ Hpending).
  - intros (t1 & e1 & Hin).
    destruct (firstRejection_some _ _ _ Hin) as (t & e & Hfirst).
    destruct (firstRejection_earliest _ _ _ Hfirst) as [Hmem Hmin].
    exists t, e, (stamp data emptyObj). split; [exact Hmem |]. split.
    + rewrite (finishRun_rejected data _ _ _ Hfirst). reflexivity.
    + exact Hmin.
Qed.

Lemma runner_waits_unless_rejected_witness :
  (exists t report,
     snd (finishRun sampleJob [Fulfilled 3 lintResult; Fulfilled 5 sizeResult])
     = Fulfilled t report /\
     forall p, In p [Fulfilled 3 lintResult; Fulfilled 5 sizeResult] ->
               exists tp, settledAt p = Some tp /\ tp <= t)
  /\
  snd (finishRun sampleJob stalledTests) = Pending
  /\
  (exists t e report,
     In (Rejected t e) abandonedTests /\
     snd (finishRun sampleJob abandonedTests) = Fulfilled t report /\
     forall t' e', In (Rejected t' e') abandonedTests -> t <= t').
Proof.
  split; [| split].
  - apply (proj1 (runner_waits_unless_rejected sampleJob
                    [Fulfilled 3 lintResult; Fulfilled 5 sizeResult])).
    repeat constructor; do 2 eexists; reflexivity.
  - apply (proj1 (proj2 (runner_waits_unless_rejected sampleJob stalledTests))).
    + intros t e [H | [H | []]]; discriminate.
    + simpl. right. left. reflexivity.
  - apply (proj2 (proj2 (runner_waits_unless_rejected sampleJob abandonedTests))).
    exists 1, (Error "hook failed"). simpl. left. reflexivity.
Defined.

(** ** The handler of [cycle:start] *)

(** C2, as stated, fails: a hook whose promise rejects is a failure during
    the run, and a [cycle:finished] report, the empty one, is published all
    the same. *)
Lemma hook_rejection_still_publishes :
  RunFailure rejectingTree sampleJob /\
  sent (onCycleStart rejectingTree sampleJob emptyWorld)
  = [{| destination := "houston"; event := "cycle:finished";
        pkg := {| rep_cycle := "c1"; rep_project := "p1"; rep_release := None;
                  rep_errors := 0; rep_warnings := 0;
                  rep_information := ∅; rep_issues := [] |} |}].
Proof.
  split.
  - apply (HookRejects rejectingTree sampleJob 2
             [("lint/pre.js", rejectingHook); ("size/pre.js", sizeHook)]
             [Rejected 1 (Error "hook failed"); Fulfilled 5 sizeResult]
             1 (Error "hook failed")).
    + reflexivity.
    + reflexivity.
    + simpl. left. reflexivity.
  - reflexivity.
Qed.

(** C2, amended: when discovery fails, or a hook throws while the hooks are
    constructed and started, no [cycle:finished] report is published and the
    failure is only logged, as two warnings with the name of the project and
    the error. When the promise of a started hook rejects, the rejection is
    logged by the runner as an error and the report of the empty aggregate is
    published. *)
Theorem failure_suppresses_report_unless_rejection
    (tree : ModuleTree Hook) (data : Job) (w : World) :
  (forall e,
     (exists t, walk tree (hookFilter "pre") = Rejected t e) \/
     (exists t hooks, walk tree (hookFilter "pre") = Fulfilled t hooks /\
                      startAll data (List.map snd hooks) = Throw e) ->
     onCycleStart tree data w
     = {| logged := (logged w ++
            [{| level := debug;
                payload := Text ("Starting flightcheck on " ++ project_name (project data)) |};
             {| level := warn;
                payload := Text ("Error running tests for " ++ project_name (project data)) |};
             {| level := warn; payload := Thrown e |}])%list;
          sent := sent w |})
  /\
  (forall t0 hooks tests,
     walk tree (hookFilter "pre") = Fulfilled t0 hooks ->
     startAll data (List.map snd hooks) = Normal tests ->
     (exists t e, In (Rejected t e) tests) ->
     exists e,
       sent (onCycleStart tree data w)
       = (sent w ++ [{| destination := "houston"; event := "cycle:finished";
                       pkg := stamp data emptyObj |}])%list /\
       In {| level := error; payload := Thrown e |}
          (logged (onCycleStart tree data w))).
Proof.
  split.
  - intros e [[t Hwalk] | (t & hooks & Hwalk & Hstart)];
      unfold onCycleStart, runHooks; rewrite Hwalk; [| rewrite Hstart];
      unfold log; simpl; rewrite <- !app_assoc; reflexivity.
  - intros t0 hooks tests Hwalk Hstart Hrej.
    destruct (runHooks_rejected tree data "pre" t0 hooks tests Hwalk Hstart Hrej)
      as (t & e & Hrun).
    exists e. unfold onCycleStart. rewrite Hrun. unfold log, send. simpl.
    split; [reflexivity |].
    apply in_or_app. left. apply in_or_app. right. simpl. left. reflexivity.
Qed.

Lemma failure_suppresses_report_unless_rejection_witness :
  onCycleStart unreadableTree sampleJob emptyWorld
  = {| logged := [{| level := debug; payload := Text "Starting flightcheck on App" |};
                  {| level := warn; payload := Text "Error running tests for App" |};
                  {| level := warn; payload := Thrown (Error "ENOENT") |}];
       sent := [] |}
  /\
  onCycleStart throwingTree sampleJob emptyWorld
  = {| logged := [{| level := debug; payload := Text "Starting flightcheck on App" |};
                  {| level := warn; payload := Text "Error running tests for App" |};
                  {| level := warn; payload := Thrown (Error "cannot construct") |}];
       sent := [] |}
  /\
  exists e,
    sent (onCycleStart rejectingTree sampleJob emptyWorld)
    = [{| destination := "houston"; event := "cycle:finished";
          pkg := stamp sampleJob emptyObj |}] /\
    In {| level := error; payload := Thrown e |}
       (logged (onCycleStart rejectingTree sampleJob emptyWorld)).
Proof.
  split; [| split].
  - apply (proj1 (failure_suppresses_report_unless_rejection
                    unreadableTree sampleJob emptyWorld) (Error "ENOENT")).
    left. exists 0. reflexivity.
  - apply (proj1 (failure_suppresses_report_unless_rejection
                    throwingTree sampleJob emptyWorld) (Error "cannot construct")).
    right. exists 2, [("lint/pre.js", lintHook); ("size/pre.js", throwingHook)].
    split; reflexivity.
  - apply (proj2 (failure_suppresses_report_unless_rejection
                    rejectingTree sampleJob emptyWorld) 2
             [("lint/pre.js", rejectingHook); ("size/pre.js", sizeHook)]
             [Rejected 1 (Error "hook failed"); Fulfilled 5 sizeResult]).
    + reflexivity.
    + reflexivity.
    + exists 1, (Error "hook failed"). simpl. left. reflexivity.
Defined.

(** ** The configuration loader *)

(** C7: [stringToDot] does not rename the segment [env]: it replaces the
    first occurrence of the letters [env] in the joined path. The two names
    of the specification come out as it says, but [HOUSTON_ENVIRONMENT_NAME],
    whose path by the rule of the specification is [environment.name], and
    [HOUSTON_ENVOY_URL], whose path is [envoy.url], do not; and of two
    segments [env] only the first is renamed. *)
Theorem stringToDot_replaces_letters :
  stringToDot "HOUSTON_LOG_LEVEL" = "log.level"
  /\ stringToDot "HOUSTON_ENV_NAME" = "environment.name"
  /\ stringToDot "HOUSTON_ENVIRONMENT_NAME" = "environmentironment.name"
  /\ specPath "HOUSTON_ENVIRONMENT_NAME" = "environment.name"
  /\ stringToDot "HOUSTON_ENVOY_URL" = "environmentoy.url"
  /\ specPath "HOUSTON_ENVOY_URL" = "envoy.url"
  /\ stringToDot "HOUSTON_ENV_ENV" = "environment.env"
  /\ specPath "HOUSTON_ENV_ENV" = "environment.environment".
Proof. repeat split. Qed.

(** The loop over the variables never works on a frozen configuration. *)
Lemma environmentEntry_mutable (config : Config.t) (kv : string * string) :
  Config.immutable config = false ->
  Config.immutable (environmentEntry config kv) = false.
Proof.
  intros H. destruct kv as [key value]. unfold environmentEntry, Config.set.
  rewrite H. destruct (startsWith key environmentPrefix); [| exact H].
  destruct (negb (isNaN (Number value))); reflexivity.
Qed.

Lemma environment_loop_mutable (vars : list (string * string)) (config : Config.t) :
  Config.immutable config = false ->
  Config.immutable (fold_left environmentEntry vars config) = false.
Proof.
  revert config. induction vars as [|kv vars IH]; intros config H; simpl.
  - exact H.
  - apply IH, environmentEntry_mutable, H.
Qed.

Lemma environmentEntry_stores (config : Config.t) (key value : string) :
  Config.immutable config = false ->
  startsWith key environmentPrefix = true ->
  Config.get (stringToDot key) (environmentEntry config (key, value))
  = Some (storedValue value).
Proof.
  intros Hm Hp. unfold environmentEntry, storedValue, Config.get, Config.set.
  rewrite Hp, Hm.
  destruct (isNaN (Number value)); simpl; apply lookup_insert_eq.
Qed.

Lemma environmentEntry_other (config : Config.t) (key value name : string) :
  (startsWith key environmentPrefix = true -> stringToDot key <> name) ->
  Config.get name (environmentEntry config (key, value)) = Config.get name config.
Proof.
  intros Hne. unfold environmentEntry, Config.get, Config.set.
  destruct (startsWith key environmentPrefix); [| reflexivity].
  specialize (Hne eq_refl).
  destruct (Config.immutable config);
    destruct (negb (isNaN (Number value))); simpl;
    try reflexivity; apply lookup_insert_ne; exact Hne.
Qed.

Lemma environment_loop_other (vars : list (string * string)) (config : Config.t) (name : string) :
  (forall k v, In (k, v) vars ->
               startsWith k environmentPrefix = true -> stringToDot k <> name) ->
  Config.get name (fold_left environmentEntry vars config) = Config.get name config.
Proof.
  revert config. induction vars as [|[k v] vars IH]; intros config H; simpl.
  - reflexivity.
  - rewrite IH.
    + apply environmentEntry_other. apply (H k v). left. reflexivity.
    + intros k' v' Hin. apply (H k' v'). right. exact Hin.
Qed.

(** A recognized variable that no later variable and no special case
    writes over is found in the environment configuration, as a number when
    its value reads as one. *)
Lemma getEnvironmentConfig_stores
    (h : Host) (before after : list (string * string)) (key value : string) :
  env h = (before ++ (key, value) :: after)%list ->
  startsWith key environmentPrefix = true ->
  (forall k v, In (k, v) after ->
               startsWith k environmentPrefix = true -> stringToDot k <> stringToDot key) ->
  (stringToDot key = "environment" -> envLookup (env h) "NODE_ENV" = None) ->
  (stringToDot key = "log.console" -> envLookup (env h) "NODE_DEBUG" = None) ->
  Config.get (stringToDot key) (getEnvironmentConfig h) = Some (storedValue value).
Proof.
  intros Henv Hp Hafter Hnode Hdebug. unfold getEnvironmentConfig.
  set (looped := fold_left environmentEntry (env h) Config.new).
  assert (Hm : Config.immutable looped = false)
    by (apply environment_loop_mutable; reflexivity).
  assert (Hl : Config.get (stringToDot key) looped = Some (storedValue value)).
  { unfold looped. rewrite Henv, fold_left_app. simpl.
    rewrite environment_loop_other by exact Hafter.
    apply environmentEntry_stores; [| exact Hp].
    apply environment_loop_mutable. reflexivity. }
  assert (Hset : forall name v config,
             Config.immutable config = false ->
             Config.immutable (Config.set name v config) = false).
  { intros name v config H. unfold Config.set. rewrite H. reflexivity. }
  assert (Hget : forall name v config,
             name <> stringToDot key ->
             Config.get (stringToDot key) (Config.set name v config)
             = Config.get (stringToDot key) config).
  { intros name v config H. unfold Config.set, Config.get.
    destruct (Config.immutable config); [reflexivity |].
    simpl. apply lookup_insert_ne. exact H. }
  unfold Config.freeze, Config.get. simpl.
  destruct (envLookup (env h) "NODE_ENV") as [ne |] eqn:E1;
    destruct (envLookup (env h) "NODE_DEBUG") as [nd |] eqn:E2.
  - fold (Config.get (stringToDot key)
            (Config.set "log.console" (JStr "debug")
               (Config.set "environment" (JStr ne) looped))).
    rewrite !Hget; [exact Hl | |]; intros H; symmetry in H;
      [specialize (Hnode H) | specialize (Hdebug H)]; discriminate.
  - fold (Config.get (stringToDot key) (Config.set "environment" (JStr ne) looped)).
    rewrite Hget; [exact Hl |]. intros H. symmetry in H.
    specialize (Hnode H). discriminate.
  - fold (Config.get (stringToDot key) (Config.set "log.console" (JStr "debug") looped)).
    rewrite Hget; [exact Hl |]. intros H. symmetry in H.
    specialize (Hdebug H). discriminate.
  - exact Hl.
Qed.

(** C8: a key that the file configuration sets and that the environment
    configuration sets too resolves, in the merged and frozen snapshot, to
    the value of the environment configuration. *)
Theorem environment_overrides_file
    (h : Host) (p : option string) (file : Config.t)
    (key : string) (fileValue envValue : JsValue) :
  getFileConfig h p = Normal file ->
  Config.get key file = Some fileValue ->
  Config.get key (getEnvironmentConfig h) = Some envValue ->
  exists config,
    getConfig h p = Normal config /\
    Config.get key config = Some envValue /\
    Config.immutable config = true.
Proof.
  intros Hfile _ Henv. unfold getConfig. rewrite Hfile.
  eexists. split; [reflexivity |]. split; [| reflexivity].
  unfold Config.get, Config.freeze, Config.merge, Config.getAll in *. simpl.
  apply lookup_union_Some_l. exact Henv.
Qed.

Lemma environment_overrides_file_witness :
  exists config,
    getConfig sampleHost None = Normal config /\
    Config.get "log.level" config = Some (JStr "debug") /\
    Config.immutable config = true.
Proof.
  apply (environment_overrides_file sampleHost None
           (Config.freeze (Config.merge
              {[ "log.level" := JStr "info"; "server.url" := JStr "http://localhost" ]}
              Config.new))
           "log.level" (JStr "info") (JStr "debug")).
  - reflexivity.
  - vm_compute. reflexivity.
  - vm_compute. reflexivity.
Defined.

(** Once the loop of [getEnvironmentConfig] has gone through a variable
    whose name starts with the prefix and whose value is the empty string,
    the configuration in the making holds the number 0 at the path of the
    variable: [Number("")] is 0, which is not NaN. *)
Lemma empty_value_loop_step
    (before : list (string * string)) (key : string) :
  startsWith key environmentPrefix = true ->
  Number "" = Dec 0 0 /\
  isNaN (Number "") = false /\
  Config.get (stringToDot key)
    (fold_left environmentEntry (before ++ [(key, "")])%list Config.new)
  = Some (JNum (Dec 0 0)).
Proof.
  intros Hp. split; [reflexivity |]. split; [reflexivity |].
  rewrite fold_left_app. cbn [fold_left].
  exact (environmentEntry_stores _ key ""
           (environment_loop_mutable before Config.new eq_refl) Hp).
Qed.

(** C9, as stated, fails on the configuration that [getEnvironmentConfig]
    returns: with [HOUSTON_ENV] empty and [NODE_ENV] set, the path
    [environment] of the variable holds the string of [NODE_ENV], not the
    number 0. *)
Lemma empty_value_not_always_zero :
  ~ (forall (h : Host) (key : string),
       In (key, "") (env h) ->
       startsWith key environmentPrefix = true ->
       Config.get (stringToDot key) (getEnvironmentConfig h) = Some (JNum (Dec 0 0))).
Proof.
  intros H.
  specialize (H overriddenHost "HOUSTON_ENV" (or_introl eq_refl) eq_refl).
  vm_compute in H. discriminate H.
Qed.

Example overriddenHost_environment :
  stringToDot "HOUSTON_ENV" = "environment"
  /\ Config.get "environment" (getEnvironmentConfig overriddenHost)
     = Some (JStr "production").
Proof. split; vm_compute; reflexivity. Qed.

(** C9, amended: a variable whose name starts with the prefix and whose
    value is the empty string is held by the environment configuration that
    [getEnvironmentConfig] returns as the number 0, not as a string, at the
    path of its name, provided no later variable with the prefix has the same
    path and the path is not [environment] with [NODE_ENV] set nor
    [log.console] with [NODE_DEBUG] set: [Number("")] is 0, which is not
    NaN. *)
Theorem empty_value_stored_as_zero
    (h : Host) (before after : list (string * string)) (key : string) :
  env h = (before ++ (key, "") :: after)%list ->
  startsWith key environmentPrefix = true ->
  (forall k v, In (k, v) after ->
               startsWith k environmentPrefix = true -> stringToDot k <> stringToDot key) ->
  (stringToDot key = "environment" -> envLookup (env h) "NODE_ENV" = None) ->
  (stringToDot key = "log.console" -> envLookup (env h) "NODE_DEBUG" = None) ->
  Number "" = Dec 0 0 /\
  isNaN (Number "") = false /\
  Config.get (stringToDot key) (getEnvironmentConfig h) = Some (JNum (Dec 0 0)).
Proof.
  intros Henv Hp Hafter Hnode Hdebug.
  split; [reflexivity |]. split; [reflexivity |].
  exact (getEnvironmentConfig_stores h before after key "" Henv Hp Hafter Hnode Hdebug).
Qed.

Lemma empty_value_stored_as_zero_witness :
  Number "" = Dec 0 0 /\
  isNaN (Number "") = false /\
  Config.get (stringToDot "HOUSTON_SERVER_PORT") (getEnvironmentConfig sampleHost)
  = Some (JNum (Dec 0 0)).
Proof.
  apply (empty_value_stored_as_zero sampleHost
           [("PATH", "/usr/bin"); ("HOUSTON_LOG_LEVEL", "debug")] []
           "HOUSTON_SERVER_PORT").
  - reflexivity.
  - reflexivity.
  - intros k v [].
  - vm_compute. discriminate.
  - vm_compute. discriminate.
Defined.

(** The whole environment configuration of the sample host. *)
Example getEnvironmentConfig_sample :
  Config.tree (getEnvironmentConfig sampleHost)
  = {[ "log.level" := JStr "debug"; "server.port" := JNum (Dec 0 0) ]}.
Proof. vm_compute. reflexivity. Qed.

(** When no well-known path is a regular file the search finds nothing. *)
Lemma searchPaths_none (h : Host) (paths : list string) :
  (forall possible, In possible paths -> statIsFile h possible <> Normal true) ->
  searchPaths h paths = ∅.
Proof.
  induction paths as [|possible paths IH]; intros H; simpl.
  - reflexivity.
  - assert (Hp := H possible (or_introl eq_refl)).
    destruct (statIsFile h possible) as [[|] | e].
    + contradiction.
    + apply IH. intros q Hq. apply H. right. exact Hq.
    + apply IH. intros q Hq. apply H. right. exact Hq.
Qed.

(** C10: called without a path, on a host where none of the well-known
    paths is a regular file (the [stat] throws or the path is not a file),
    [getFileConfig] returns normally, with an empty and frozen
    configuration. *)
Theorem getFileConfig_defaults_to_empty (h : Host) :
  (forall possible, In possible (configurationPaths h) ->
                    statIsFile h possible <> Normal true) ->
  getFileConfig h None = Normal {| Config.tree := ∅; Config.immutable := true |}.
Proof.
  intros H. unfold getFileConfig. rewrite (searchPaths_none h _ H).
  unfold Config.freeze, Config.merge, Config.new. simpl.
  rewrite (left_id_L ∅ (∪)). reflexivity.
Qed.

Lemma getFileConfig_defaults_to_empty_witness :
  getFileConfig bareHost None = Normal {| Config.tree := ∅; Config.immutable := true |}.
Proof.
  apply (getFileConfig_defaults_to_empty bareHost).
  intros possible _. discriminate.
Defined.

(** * Further properties of the code *)

(** ** flightcheck/index.js *)

Lemma lowerAscii_idempotent (c : ascii) : lowerAscii (lowerAscii c) = lowerAscii c.
Proof. destruct c as [[] [] [] [] [] [] [] []]; reflexivity. Qed.

Lemma toLowerCase_idempotent (s : string) : toLowerCase (toLowerCase s) = toLowerCase s.
Proof.
  induction s as [|c s IH]; simpl; [reflexivity |].
  rewrite lowerAscii_idempotent, IH. reflexivity.
Qed.

(** X3: the phase is read without regard to case: two phases with the same
    lowercase form make the callback of [runHooks] accept the same paths, so
    a phase and its lowercase form select the same modules. *)
Theorem hookFilter_ignores_case (test test' path : string) :
  toLowerCase test = toLowerCase test' ->
  hookFilter test path = hookFilter test' path
  /\ hookFilter (toLowerCase test) path = hookFilter test path.
Proof.
  intros H. unfold hookFilter. rewrite toLowerCase_idempotent, H. split; reflexivity.
Qed.

Lemma hookFilter_ignores_case_witness :
  hookFilter "PRE" "appdata/pre.js" = hookFilter "Pre" "appdata/pre.js"
  /\ hookFilter (toLowerCase "PRE") "appdata/pre.js" = hookFilter "PRE" "appdata/pre.js".
Proof. apply (hookFilter_ignores_case "PRE" "Pre" "appdata/pre.js"). reflexivity. Defined.

(** X1: the issues of the report are the non-null issues of the results, in
    the order of the results; a result without an issue adds nothing. *)
Theorem report_issues_in_order (data : Job) (results : list PartialResult) :
  rep_issues (stamp data (aggregate (Some results))) = omap issue results
  /\ length (rep_issues (stamp data (aggregate (Some results)))) <= length results.
Proof.
  assert (H : rep_issues (stamp data (aggregate (Some results))) = omap issue results).
  { simpl. rewrite fold_accumulate_issues. reflexivity. }
  split; [exact H |]. rewrite H. clear H.
  induction results as [|r results IH]; simpl; [lia |].
  unfold omap in IH. destruct (issue r); simpl; lia.
Qed.

Lemma finishRun_settles_stamped (data : Job) (tests : list (Promise PartialResult))
    (t : nat) (report : Report) :
  snd (finishRun data tests) = Fulfilled t report ->
  exists obj, report = stamp data obj.
Proof.
  unfold finishRun. destruct (all tests) as [t1 vs | t1 e |]; simpl; intros H.
  - inversion H. eauto.
  - inversion H. eauto.
  - discriminate.
Qed.

(** X4: whenever [runHooks] resolves, whatever the tree and the hooks, the
    report carries the identifiers of the job: those of its cycle and of
    its project, and that of its release, null when the job has none. *)
Theorem runHooks_stamps_job
    (tree : ModuleTree Hook) (data : Job) (test : string) (t : nat) (report : Report) :
  snd (runHooks tree data test) = Fulfilled t report ->
  rep_cycle report = cycle_id (cycle data)
  /\ rep_project report = project_id (project data)
  /\ rep_release report = release_id <$> release data.
Proof.
  unfold runHooks.
  destruct (walk tree (hookFilter test)) as [t0 hooks | t0 e |]; simpl;
    [| discriminate | discriminate].
  destruct (startAll data (List.map snd hooks)) as [tests | e]; simpl; [| discriminate].
  destruct (finishRun data tests) as [entries result] eqn:E. simpl.
  destruct result as [t1 r | t1 e |]; simpl; intros H; inversion H; subst; clear H.
  destruct (finishRun_settles_stamped data tests t1 report) as [obj ->].
  - rewrite E. reflexivity.
  - simpl. destruct (release data); repeat split.
Qed.

Lemma runHooks_stamps_job_witness :
  rep_cycle (stamp sampleJob (aggregate (Some [lintResult; sizeResult]))) = "c1"
  /\ rep_project (stamp sampleJob (aggregate (Some [lintResult; sizeResult]))) = "p1"
  /\ rep_release (stamp sampleJob (aggregate (Some [lintResult; sizeResult]))) = None.
Proof.
  apply (runHooks_stamps_job healthyTree sampleJob "pre" 7
           (stamp sampleJob (aggregate (Some [lintResult; sizeResult])))).
  reflexivity.
Defined.

(** X5: one [cycle:start] sends at most one message, always the event
    [cycle:finished] to [houston]; the messages and the log entries that were
    there before are kept, and the first new log entry is the start of the
    flightcheck. *)
Theorem onCycleStart_sends_at_most_once
    (tree : ModuleTree Hook) (data : Job) (w : World) :
  (sent (onCycleStart tree data w) = sent w
   \/ exists report,
        sent (onCycleStart tree data w)
        = (sent w ++ [{| destination := "houston"; event := "cycle:finished";
                         pkg := report |}])%list)
  /\ exists entries,
       logged (onCycleStart tree data w)
       = (logged w ++
          {| level := debug;
             payload := Text ("Starting flightcheck on " ++ project_name (project data)) |}
          :: entries)%list.
Proof.
  unfold onCycleStart.
  destruct (runHooks tree data "pre") as [entries result].
  destruct result as [t r | t e |]; unfold log, send; simpl.
  - split; [right; eauto |]. eexists. rewrite <- !app_assoc. simpl. reflexivity.
  - split; [left; reflexivity |]. eexists. rewrite <- !app_assoc. simpl. reflexivity.
  - split; [left; reflexivity |]. eexists. rewrite <- !app_assoc. simpl. reflexivity.
Qed.

(** X6: a run whose hooks are all fulfilled publishes one report, the
    aggregate of their results in array order, and logs two entries: the
    start, and the number of errors found, which is the sum of the errors of
    the results. *)
Theorem onCycleStart_publishes_aggregate
    (tree : ModuleTree Hook) (data : Job) (w : World)
    (t0 : nat) (hooks : list (string * Hook))
    (tests : list (Promise PartialResult)) (results : list PartialResult) :
  walk tree (hookFilter "pre") = Fulfilled t0 hooks ->
  startAll data (List.map snd hooks) = Normal tests ->
  Forall2 (fun p r => exists t, p = Fulfilled t r) tests results ->
  onCycleStart tree data w
  = {| logged := (logged w ++
         [{| level := debug;
             payload := Text ("Starting flightcheck on " ++ project_name (project data)) |};
          {| level := debug;
             payload := Found (sum (List.map errors results)) (project_name (project data)) |}])%list;
       sent := (sent w ++
         [{| destination := "houston"; event := "cycle:finished";
             pkg := stamp data (aggregate (Some results)) |}])%list |}.
Proof.
  intros Hwalk Hstart Hall.
  destruct (allFulfilled_values _ _ Hall) as [t Ht].
  unfold onCycleStart, runHooks. rewrite Hwalk, Hstart.
  rewrite (finishRun_fulfilled data _ _ _ Ht). unfold log, send. simpl.
  rewrite fold_accumulate_errors. simpl. rewrite N.add_0_r.
  rewrite app_nil_r, <- app_assoc. reflexivity.
Qed.

Lemma onCycleStart_publishes_aggregate_witness :
  onCycleStart healthyTree sampleJob emptyWorld
  = {| logged := ([] ++
         [{| level := debug;
             payload := Text ("Starting flightcheck on " ++ project_name (project sampleJob)) |};
          {| level := debug;
             payload := Found (sum (List.map errors [lintResult; sizeResult]))
                          (project_name (project sampleJob)) |}])%list;
       sent := ([] ++
         [{| destination := "houston"; event := "cycle:finished";
             pkg := stamp sampleJob (aggregate (Some [lintResult; sizeResult])) |}])%list |}.
Proof.
  apply (onCycleStart_publishes_aggregate healthyTree sampleJob emptyWorld 2
           [("lint/pre.js", lintHook); ("size/pre.js", sizeHook)]
           [Fulfilled 3 lintResult; Fulfilled 5 sizeResult] [lintResult; sizeResult]).
  - reflexivity.
  - reflexivity.
  - repeat constructor; eexists; reflexivity.
Defined.

(** X7: when no started hook rejects and one of them never settles, the run
    stalls: nothing is published and nothing is logged after the start, not
    even a failure. *)
Theorem onCycleStart_stalls
    (tree : ModuleTree Hook) (data : Job) (w : World)
    (t0 : nat) (hooks : list (string * Hook)) (tests : list (Promise PartialResult)) :
  walk tree (hookFilter "pre") = Fulfilled t0 hooks ->
  startAll data (List.map snd hooks) = Normal tests ->
  (forall t e, ~ In (Rejected t e) tests) ->
  In Pending tests ->
  onCycleStart tree data w
  = {| logged := (logged w ++
         [{| level := debug;
             payload := Text ("Starting flightcheck on " ++ project_name (project data)) |}])%list;
       sent := sent w |}.
Proof.
  intros Hwalk Hstart Hnone Hpending.
  unfold onCycleStart, runHooks. rewrite Hwalk, Hstart.
  rewrite (finishRun_pending data tests).
  - unfold log. simpl. rewrite app_nil_r. reflexivity.
  - destruct (firstRejection tests) as [[t e] |] eqn:E; [| reflexivity].
    exfalso. exact (Hnone _ _ (proj1 (firstRejection_earliest _ _ _ E))).
  - exact (allFulfilled_pending _ Hpending).
Qed.

Lemma onCycleStart_stalls_witness :
  onCycleStart stalledTree sampleJob emptyWorld
  = {| logged := ([] ++
         [{| level := debug;
             payload := Text ("Starting flightcheck on " ++ project_name (project sampleJob)) |}])%list;
       sent := [] |}.
Proof.
  apply (onCycleStart_stalls stalledTree sampleJob emptyWorld 2
           [("lint/pre.js", lintHook); ("size/pre.js", stallingHook)] stalledTests).
  - reflexivity.
  - reflexivity.
  - intros t e [H | [H | []]]; discriminate.
  - simpl. right. left. reflexivity.
Defined.

Lemma walk_root_only {M : Type} (t : nat) (entries : list (string * M)) (test : string) :
  (forall path m, In (path, m) entries -> indexOf path "/" = (-1)%Z) ->
  walk (Modules t entries) (hookFilter test) = Fulfilled t [].
Proof.
  intros H. unfold walk. f_equal.
  induction entries as [|[path m] entries IH]; simpl; [reflexivity |].
  rewrite (hookFilter_root test path (H path m (or_introl eq_refl))).
  apply IH. intros path' m' Hin. apply (H path' m'). right. exact Hin.
Qed.

(** X8: the modules at the root of the tree are never constructed or
    started: over a tree that holds only such modules, [runHooks] resolves as
    soon as the tree is read, with the empty report of the job, and logs
    nothing, whatever these modules would do when run. *)
Theorem runHooks_skips_root_modules
    (t : nat) (entries : list (string * Hook)) (data : Job) (test : string) :
  (forall path m, In (path, m) entries -> indexOf path "/" = (-1)%Z) ->
  runHooks (Modules t entries) data test = ([], Fulfilled t (stamp data emptyObj)).
Proof.
  intros H. unfold runHooks. rewrite (walk_root_only t entries test H). simpl.
  unfold finishRun. simpl. rewrite Nat.add_0_r. reflexivity.
Qed.

Lemma runHooks_skips_root_modules_witness :
  runHooks rootOnlyTree sampleJob "pre" = ([], Fulfilled 4 (stamp sampleJob emptyObj)).
Proof.
  apply (runHooks_skips_root_modules 4
           [("index.js", throwingHook); ("hook.js", rejectingHook)] sampleJob "pre").
  intros path m [H | [H | []]]; inversion H; reflexivity.
Defined.

Lemma sum_errors_permutation (results results' : list PartialResult) (f : PartialResult -> N) :
  Permutation results results' ->
  sum (List.map f results) = sum (List.map f results').
Proof.
  induction 1 as [| r l l' _ IH | r r' l | l l' l'' _ IH1 _ IH2]; simpl.
  - reflexivity.
  - rewrite IH. reflexivity.
  - lia.
  - rewrite IH1. exact IH2.
Qed.

(** X9: the two totals of the report do not depend on the order in which
    the hooks were discovered: the reports of two sequences of results that
    are permutations of each other have the same [errors] and the same
    [warnings]. *)
Theorem totals_independent_of_order
    (data : Job) (results results' : list PartialResult) :
  Permutation results results' ->
  rep_errors (stamp data (aggregate (Some results)))
  = rep_errors (stamp data (aggregate (Some results')))
  /\ rep_warnings (stamp data (aggregate (Some results)))
     = rep_warnings (stamp data (aggregate (Some results'))).
Proof.
  intros H. simpl.
  rewrite !fold_accumulate_errors, !fold_accumulate_warnings.
  rewrite (sum_errors_permutation _ _ errors H), (sum_errors_permutation _ _ warnings H).
  split; reflexivity.
Qed.

Lemma totals_independent_of_order_witness :
  rep_errors (stamp sampleJob (aggregate (Some [firstWriter; secondWriter])))
  = rep_errors (stamp sampleJob (aggregate (Some [secondWriter; firstWriter])))
  /\ rep_warnings (stamp sampleJob (aggregate (Some [firstWriter; secondWriter])))
     = rep_warnings (stamp sampleJob (aggregate (Some [secondWriter; firstWriter]))).
Proof.
  apply (totals_independent_of_order sampleJob
           [firstWriter; secondWriter] [secondWriter; firstWriter]).
  apply perm_swap.
Defined.

(** X10: the information is merged in the order of the array of hooks, not
    in the order in which the hooks complete: an entry of the result of the
    last hook of the array is in the report, whenever that hook and the
    hooks before it were fulfilled. *)
Theorem last_hook_of_array_wins
    (data : Job) (tests : list (Promise PartialResult)) (earlier : list PartialResult)
    (t : nat) (r : PartialResult) (key : string) (v : JsValue) :
  Forall2 (fun p r => exists t, p = Fulfilled t r) tests earlier ->
  information r !! key = Some v ->
  exists t' report,
    finishRun data (tests ++ [Fulfilled t r])%list = ([], Fulfilled t' report)
    /\ rep_information report !! key = Some v.
Proof.
  intros Hall Hkey.
  assert (Hall' : Forall2 (fun p r => exists t, p = Fulfilled t r)
                    (tests ++ [Fulfilled t r])%list (earlier ++ [r])%list).
  { apply Forall2_app; [exact Hall |]. constructor; [eauto | constructor]. }
  destruct (allFulfilled_values _ _ Hall') as [t' Ht'].
  exists t', (stamp data (aggregate (Some (earlier ++ [r])%list))). split.
  - exact (finishRun_fulfilled data _ _ _ Ht').
  - exact (information_later_overwrites data earlier r key v Hkey).
Qed.

Lemma last_hook_of_array_wins_witness :
  exists t' report,
    finishRun sampleJob ([Fulfilled 9 firstWriter] ++ [Fulfilled 1 secondWriter])%list
    = ([], Fulfilled t' report)
    /\ rep_information report !! "license" = Some (JStr "GPL-3.0").
Proof.
  apply (last_hook_of_array_wins sampleJob [Fulfilled 9 firstWriter] [firstWriter]
           1 secondWriter "license" (JStr "GPL-3.0")).
  - repeat constructor. eexists. reflexivity.
  - vm_compute. reflexivity.
Defined.

(** ** Strings *)

Lemma toLowerCase_app (a b : string) :
  toLowerCase (a ++ b) = toLowerCase a ++ toLowerCase b.
Proof. induction a as [|c a IH]; simpl; [reflexivity | rewrite IH; reflexivity]. Qed.

Lemma append_empty_r (s : string) : s ++ "" = s.
Proof.
  induction s as [|c s IH]; [reflexivity |].
  change (String c (s ++ "") = String c s). f_equal. exact IH.
Qed.

Lemma lowerAscii_underscore (c : ascii) :
  Ascii.eqb (lowerAscii c) "_" = Ascii.eqb c "_".
Proof. destruct c as [[] [] [] [] [] [] [] []]; reflexivity. Qed.

Lemma hasChar_toLowerCase_underscore (s : string) :
  hasChar "_" (toLowerCase s) = hasChar "_" s.
Proof.
  induction s as [|c s IH]; simpl; [reflexivity |].
  rewrite lowerAscii_underscore, IH. reflexivity.
Qed.

Lemma hasChar_app (c : ascii) (a b : string) :
  hasChar c (a ++ b) = hasChar c a || hasChar c b.
Proof.
  induction a as [|d a IH]; simpl; [reflexivity |].
  rewrite IH, orb_assoc. reflexivity.
Qed.

Lemma string_of_list_ascii_app (l1 l2 : list ascii) :
  string_of_list_ascii (l1 ++ l2)%list
  = string_of_list_ascii l1 ++ string_of_list_ascii l2.
Proof.
  induction l1 as [|c l1 IH]; [reflexivity |].
  change (String c (string_of_list_ascii (l1 ++ l2)%list)
          = String c (string_of_list_ascii l1 ++ string_of_list_ascii l2)).
  f_equal. exact IH.
Qed.

Lemma append_snoc (x : string) (c : ascii) (s : string) :
  (x ++ String c "") ++ s = x ++ String c s.
Proof.
  induction x as [|d x IH]; [reflexivity |].
  change (String d ((x ++ String c "") ++ s) = String d (x ++ String c s)).
  f_equal. exact IH.
Qed.

Lemma revString_cons (c : ascii) (cur : list ascii) (s : string) :
  revString (c :: cur) ++ s = revString cur ++ String c s.
Proof.
  unfold revString. simpl List.rev. rewrite string_of_list_ascii_app.
  apply append_snoc.
Qed.

(** A string without the separator is one segment. *)
Lemma splitFrom_no_separator (sep : ascii) (s : string) (cur : list ascii) :
  hasChar sep s = false ->
  splitFrom sep cur s = [revString cur ++ s].
Proof.
  revert cur. induction s as [|c s IH]; intros cur H; simpl in *.
  - rewrite append_empty_r. reflexivity.
  - apply orb_false_iff in H. destruct H as [Hc Hs]. rewrite Hc.
    rewrite (IH _ Hs), revString_cons. reflexivity.
Qed.

(** The first separator ends the first segment. *)
Lemma splitFrom_first_separator (sep : ascii) (a rest : string) (cur : list ascii) :
  hasChar sep a = false ->
  splitFrom sep cur (a ++ String sep rest)
  = (revString cur ++ a) :: splitFrom sep [] rest.
Proof.
  revert cur. induction a as [|c a IH]; intros cur H.
  - change (splitFrom sep cur (String sep rest)
            = (revString cur ++ "") :: splitFrom sep [] rest).
    simpl. rewrite Ascii.eqb_refl, append_empty_r. reflexivity.
  - change (splitFrom sep cur (String c (a ++ String sep rest))
            = (revString cur ++ String c a) :: splitFrom sep [] rest).
    simpl in H. apply orb_false_iff in H. destruct H as [Hc Hs].
    simpl. rewrite Hc, (IH _ Hs), revString_cons. reflexivity.
Qed.

Lemma split_no_separator (sep : ascii) (s : string) :
  hasChar sep s = false -> split sep s = [s].
Proof. intros H. unfold split. rewrite (splitFrom_no_separator sep s [] H). reflexivity. Qed.

Lemma split_first_separator (sep : ascii) (a rest : string) :
  hasChar sep a = false -> split sep (a ++ String sep rest) = a :: split sep rest.
Proof.
  intros H. unfold split. rewrite (splitFrom_first_separator sep a rest [] H). reflexivity.
Qed.

(** ** [stringToDot] *)

Lemma prefix_append (a b : string) : String.prefix a (a ++ b) = true.
Proof.
  induction a as [|c a IH].
  - destruct b; reflexivity.
  - change (String.prefix (String c a) (String c (a ++ b)) = true).
    simpl. destruct (ascii_dec c c) as [_ | Hne]; [exact IH | contradiction].
Qed.

Lemma stringToDot_after_first_segment (a rest : string) :
  hasChar "_" a = false ->
  stringToDot (a ++ String "_" rest)
  = replace (join "." (split "_" (toLowerCase rest))) "env" "environment".
Proof.
  intros H. unfold stringToDot. rewrite toLowerCase_app.
  change (toLowerCase (String "_" rest)) with (String "_" (toLowerCase rest)).
  rewrite split_first_separator by (rewrite hasChar_toLowerCase_underscore; exact H).
  reflexivity.
Qed.

(** X11: the first segment of the name is dropped whatever it is. A variable
    whose name only begins with the letters of the prefix, such as
    [HOUSTONIA_LOG_LEVEL], passes the test of the prefix and gets the path of
    the variable [HOUSTON_LOG_LEVEL]. *)
Theorem stringToDot_drops_first_segment (junk rest : string) :
  hasChar "_" junk = false ->
  startsWith ("HOUSTON" ++ junk ++ String "_" rest) environmentPrefix = true
  /\ stringToDot ("HOUSTON" ++ junk ++ String "_" rest)
     = stringToDot ("HOUSTON" ++ String "_" rest).
Proof.
  intros H. split; [apply prefix_append |].
  change ("HOUSTON" ++ junk ++ String "_" rest)
    with (("HOUSTON" ++ junk) ++ String "_" rest).
  rewrite !stringToDot_after_first_segment; [reflexivity | reflexivity |].
  rewrite hasChar_app, H. reflexivity.
Qed.

Lemma stringToDot_drops_first_segment_witness :
  startsWith ("HOUSTON" ++ "IA" ++ String "_" "LOG_LEVEL") environmentPrefix = true
  /\ stringToDot ("HOUSTON" ++ "IA" ++ String "_" "LOG_LEVEL")
     = stringToDot ("HOUSTON" ++ String "_" "LOG_LEVEL").
Proof. apply (stringToDot_drops_first_segment "IA" "LOG_LEVEL"). reflexivity. Defined.

(** X12: a name without an underscore has the empty path; when it starts
    with the prefix, as [HOUSTON] itself does, its value is stored under the
    empty key. *)
Theorem stringToDot_without_underscore (name value : string) (config : Config.t) :
  hasChar "_" name = false ->
  stringToDot name = ""
  /\ (startsWith name environmentPrefix = true ->
      Config.immutable config = false ->
      Config.get "" (environmentEntry config (name, value)) = Some (storedValue value)).
Proof.
  intros H.
  assert (Hdot : stringToDot name = "").
  { unfold stringToDot.
    rewrite split_no_separator by (rewrite hasChar_toLowerCase_underscore; exact H).
    reflexivity. }
  split; [exact Hdot |]. intros Hp Hm.
  rewrite <- Hdot. apply environmentEntry_stores; assumption.
Qed.

Lemma stringToDot_without_underscore_witness :
  stringToDot "HOUSTON" = ""
  /\ Config.get "" (environmentEntry Config.new ("HOUSTON", "abc")) = Some (storedValue "abc").
Proof.
  destruct (stringToDot_without_underscore "HOUSTON" "abc" Config.new eq_refl) as [H1 H2].
  split; [exact H1 | exact (H2 eq_refl eq_refl)].
Defined.

Lemma splitFrom_segments (sep : ascii) (s : string) (cur : list ascii) :
  hasChar sep (revString cur) = false ->
  Forall (fun seg => hasChar sep seg = false) (splitFrom sep cur s).
Proof.
  revert cur. induction s as [|c s IH]; intros cur H; simpl.
  - constructor; [exact H | constructor].
  - destruct (Ascii.eqb c sep) eqn:E.
    + constructor; [exact H |]. apply IH. reflexivity.
    + apply IH. rewrite <- (append_empty_r (revString (c :: cur))).
      rewrite revString_cons, hasChar_app, H. simpl. rewrite E. reflexivity.
Qed.

Lemma hasChar_join (c : ascii) (sep : string) (segs : list string) :
  hasChar c sep = false ->
  Forall (fun seg => hasChar c seg = false) segs ->
  hasChar c (join sep segs) = false.
Proof.
  intros Hsep. induction 1 as [|seg segs Hseg _ IH]; [reflexivity |].
  destruct segs as [|seg' segs]; [exact Hseg |].
  change (hasChar c (seg ++ sep ++ join sep (seg' :: segs)) = false).
  rewrite !hasChar_app, Hseg, Hsep, IH. reflexivity.
Qed.

Lemma hasChar_dropChars (c : ascii) (n : nat) (s : string) :
  hasChar c s = false -> hasChar c (dropChars n s) = false.
Proof.
  revert s. induction n as [|n IH]; intros s H; [exact H |].
  destruct s as [|d s]; [reflexivity |]. simpl in *.
  apply orb_false_iff in H. apply IH. exact (proj2 H).
Qed.

Lemma hasChar_replace (c : ascii) (s pat rep : string) :
  hasChar c s = false -> hasChar c rep = false ->
  hasChar c (replace s pat rep) = false.
Proof.
  intros Hs Hrep. induction s as [|d s IH].
  - cbn [replace]. destruct (String.prefix pat "").
    + rewrite hasChar_app, Hrep. apply hasChar_dropChars. reflexivity.
    + reflexivity.
  - cbn [replace]. destruct (String.prefix pat (String d s)).
    + rewrite hasChar_app, Hrep. apply hasChar_dropChars. exact Hs.
    + simpl in *. apply orb_false_iff in Hs. destruct Hs as [Hd Hs].
      rewrite Hd. apply IH. exact Hs.
Qed.

(** X13: the path that [stringToDot] returns never holds an underscore,
    whatever the name: every underscore of the name has become a dot or has
    gone with the first segment. *)
Theorem stringToDot_has_no_underscore (name : string) :
  hasChar "_" (stringToDot name) = false.
Proof.
  unfold stringToDot. apply hasChar_replace; [| reflexivity].
  apply hasChar_join; [reflexivity |].
  unfold splice1, split.
  assert (H := splitFrom_segments "_" (toLowerCase name) [] eq_refl).
  destruct (splitFrom "_" [] (toLowerCase name)) as [|seg segs]; [constructor |].
  inversion H; subst. assumption.
Qed.

(** ** [getEnvironmentConfig] *)

(** X14: a variable whose name starts with the prefix is found in the
    environment configuration under the path of its name, as a number when
    its value reads as one and as the string otherwise, provided no later
    recognized variable has the same path and the path is not the one of a
    special case that is set. *)
Theorem recognized_variable_is_stored
    (h : Host) (before after : list (string * string)) (key value : string) :
  env h = (before ++ (key, value) :: after)%list ->
  startsWith key environmentPrefix = true ->
  (forall k v, In (k, v) after ->
               startsWith k environmentPrefix = true -> stringToDot k <> stringToDot key) ->
  (stringToDot key = "environment" -> envLookup (env h) "NODE_ENV" = None) ->
  (stringToDot key = "log.console" -> envLookup (env h) "NODE_DEBUG" = None) ->
  Config.get (stringToDot key) (getEnvironmentConfig h)
  = Some (if isNaN (Number value) then JStr value else JNum (Number value)).
Proof. exact (getEnvironmentConfig_stores h before after key value). Qed.

Lemma recognized_variable_is_stored_witness :
  Config.get (stringToDot "HOUSTON_LOG_LEVEL") (getEnvironmentConfig sampleHost)
  = Some (if isNaN (Number "debug") then JStr "debug" else JNum (Number "debug")).
Proof.
  apply (recognized_variable_is_stored sampleHost
           [("PATH", "/usr/bin")] [("HOUSTON_SERVER_PORT", "")]
           "HOUSTON_LOG_LEVEL" "debug").
  - reflexivity.
  - reflexivity.
  - intros k v [H | []] _. inversion H. vm_compute. discriminate.
  - vm_compute. discriminate.
  - vm_compute. discriminate.
Defined.

Lemma set_mutable (name : string) (v : JsValue) (config : Config.t) :
  Config.immutable config = false ->
  Config.immutable (Config.set name v config) = false.
Proof. intros H. unfold Config.set. rewrite H. reflexivity. Qed.

Lemma get_set (name key : string) (v : JsValue) (config : Config.t) :
  Config.immutable config = false ->
  Config.get key (Config.set name v config)
  = if decide (name = key) then Some v else Config.get key config.
Proof.
  intros H. unfold Config.set, Config.get. rewrite H. simpl.
  apply lookup_insert.
Qed.

(** X15: when [NODE_ENV] is set, the path [environment] holds its value, as a
    string even when the value reads as a number, whatever a variable such as
    [HOUSTON_ENV] says. *)
Theorem NODE_ENV_names_the_environment (h : Host) (v : string) :
  envLookup (env h) "NODE_ENV" = Some v ->
  Config.get "environment" (getEnvironmentConfig h) = Some (JStr v).
Proof.
  intros H. unfold getEnvironmentConfig. rewrite H.
  set (looped := fold_left environmentEntry (env h) Config.new).
  assert (Hm : Config.immutable looped = false)
    by (apply environment_loop_mutable; reflexivity).
  assert (Hs : Config.immutable (Config.set "environment" (JStr v) looped) = false)
    by (apply set_mutable; exact Hm).
  destruct (envLookup (env h) "NODE_DEBUG").
  - change (Config.get "environment"
              (Config.set "log.console" (JStr "debug")
                 (Config.set "environment" (JStr v) looped)) = Some (JStr v)).
    rewrite (get_set _ _ _ _ Hs), (get_set _ _ _ _ Hm). reflexivity.
  - change (Config.get "environment" (Config.set "environment" (JStr v) looped)
            = Some (JStr v)).
    rewrite (get_set _ _ _ _ Hm). reflexivity.
Qed.

Lemma NODE_ENV_names_the_environment_witness :
  Config.get "environment" (getEnvironmentConfig specialHost) = Some (JStr "7").
Proof. apply (NODE_ENV_names_the_environment specialHost "7"). reflexivity. Defined.

(** X16: when [NODE_DEBUG] is set, to any value, the empty string included,
    the path [log.console] holds the string [debug], whatever a variable such
    as [HOUSTON_LOG_CONSOLE] says. *)
Theorem NODE_DEBUG_raises_console (h : Host) (v : string) :
  envLookup (env h) "NODE_DEBUG" = Some v ->
  Config.get "log.console" (getEnvironmentConfig h) = Some (JStr "debug").
Proof.
  intros H. unfold getEnvironmentConfig. rewrite H.
  set (looped := fold_left environmentEntry (env h) Config.new).
  assert (Hm : Config.immutable looped = false)
    by (apply environment_loop_mutable; reflexivity).
  destruct (envLookup (env h) "NODE_ENV") as [ne |].
  - change (Config.get "log.console"
              (Config.set "log.console" (JStr "debug")
                 (Config.set "environment" (JStr ne) looped)) = Some (JStr "debug")).
    rewrite get_set by (apply set_mutable; exact Hm). reflexivity.
  - change (Config.get "log.console" (Config.set "log.console" (JStr "debug") looped)
            = Some (JStr "debug")).
    rewrite (get_set _ _ _ _ Hm). reflexivity.
Qed.

Lemma NODE_DEBUG_raises_console_witness :
  Config.get "log.console" (getEnvironmentConfig specialHost) = Some (JStr "debug").
Proof. apply (NODE_DEBUG_raises_console specialHost ""). reflexivity. Defined.

Lemma environment_loop_origin
    (vars : list (string * string)) (config : Config.t) (key : string) (v : JsValue) :
  Config.immutable config = false ->
  Config.get key (fold_left environmentEntry vars config) = Some v ->
  Config.get key config = Some v
  \/ exists name value,
       In (name, value) vars /\ startsWith name environmentPrefix = true
       /\ stringToDot name = key /\ v = storedValue value.
Proof.
  revert config. induction vars as [|[name value] vars IH]; intros config Hm H; simpl in H.
  - left. exact H.
  - destruct (IH _ (environmentEntry_mutable config (name, value) Hm) H)
      as [Hc | (n & x & Hin & Hp & Hd & Hv)].
    + destruct (startsWith name environmentPrefix) eqn:Hp.
      * destruct (decide (stringToDot name = key)) as [Hk | Hk].
        -- right. exists name, value. split; [left; reflexivity |].
           split; [exact Hp |]. split; [exact Hk |].
           rewrite <- Hk, (environmentEntry_stores config name value Hm Hp) in Hc.
           inversion Hc. reflexivity.
        -- left. rewrite environmentEntry_other in Hc; [exact Hc |].
           intros _. exact Hk.
      * left. rewrite environmentEntry_other in Hc; [exact Hc |].
        intros Habs. rewrite Hp in Habs. discriminate.
    + right. exists n, x. split; [right; exact Hin |]. auto.
Qed.

(** X17: nothing else gets into the environment configuration: every entry
    of it is the [debug] of [NODE_DEBUG], the value of [NODE_ENV], or the
    stored value of a variable whose name starts with the prefix, under the
    path of that name. A variable without the prefix leaves no trace. *)
Theorem environment_holds_only_recognized (h : Host) (key : string) (v : JsValue) :
  Config.get key (getEnvironmentConfig h) = Some v ->
  (key = "log.console" /\ v = JStr "debug" /\ is_Some (envLookup (env h) "NODE_DEBUG"))
  \/ (key = "environment" /\ exists ne, envLookup (env h) "NODE_ENV" = Some ne /\ v = JStr ne)
  \/ (exists name value,
        In (name, value) (env h) /\ startsWith name environmentPrefix = true
        /\ stringToDot name = key /\ v = storedValue value).
Proof.
  unfold getEnvironmentConfig.
  set (looped := fold_left environmentEntry (env h) Config.new).
  assert (Hm : Config.immutable looped = false)
    by (apply environment_loop_mutable; reflexivity).
  assert (Hloop : Config.get key looped = Some v ->
                  exists name value,
                    In (name, value) (env h) /\ startsWith name environmentPrefix = true
                    /\ stringToDot name = key /\ v = storedValue value).
  { intros H. destruct (environment_loop_origin (env h) Config.new key v eq_refl H)
      as [Habs | Hex]; [| exact Hex].
    unfold Config.get in Habs. simpl in Habs. rewrite lookup_empty in Habs. discriminate. }
  assert (Henv : forall ne, envLookup (env h) "NODE_ENV" = Some ne ->
            Config.get key (Config.set "environment" (JStr ne) looped) = Some v ->
            (key = "environment" /\ exists ne, envLookup (env h) "NODE_ENV" = Some ne /\ v = JStr ne)
            \/ (exists name value,
                  In (name, value) (env h) /\ startsWith name environmentPrefix = true
                  /\ stringToDot name = key /\ v = storedValue value)).
  { intros ne Hne H. rewrite (get_set _ _ _ _ Hm) in H.
    destruct (decide ("environment" = key)) as [<- | Hk].
    - left. split; [reflexivity |]. exists ne. inversion H. auto.
    - right. exact (Hloop H). }
  destruct (envLookup (env h) "NODE_ENV") as [ne |] eqn:E1;
    destruct (envLookup (env h) "NODE_DEBUG") as [nd |] eqn:E2; intros H.
  - change (Config.get key (Config.set "log.console" (JStr "debug")
                              (Config.set "environment" (JStr ne) looped)) = Some v) in H.
    rewrite get_set in H by (apply set_mutable; exact Hm).
    destruct (decide ("log.console" = key)) as [<- | Hk].
    + left. inversion H. split; [reflexivity |]. split; [reflexivity | eauto].
    + right. exact (Henv ne eq_refl H).
  - right. exact (Henv ne eq_refl H).
  - change (Config.get key (Config.set "log.console" (JStr "debug") looped) = Some v) in H.
    rewrite (get_set _ _ _ _ Hm) in H.
    destruct (decide ("log.console" = key)) as [<- | Hk].
    + left. inversion H. split; [reflexivity |]. split; [reflexivity | eauto].
    + right. right. exact (Hloop H).
  - right. right. exact (Hloop H).
Qed.

Lemma environment_holds_only_recognized_witness :
  ("log.level" = "log.console" /\ JStr "debug" = JStr "debug"
   /\ is_Some (envLookup (env sampleHost) "NODE_DEBUG"))
  \/ ("log.level" = "environment"
      /\ exists ne, envLookup (env sampleHost) "NODE_ENV" = Some ne /\ JStr "debug" = JStr ne)
  \/ (exists name value,
        In (name, value) (env sampleHost) /\ startsWith name environmentPrefix = true
        /\ stringToDot name = "log.level" /\ JStr "debug" = storedValue value).
Proof.
  apply (environment_holds_only_recognized sampleHost "log.level" (JStr "debug")).
  vm_compute. reflexivity.
Defined.

Lemma trimStart_blank (s : string) :
  forallb isSpace (list_ascii_of_string s) = true -> trimStart s = "".
Proof.
  induction s as [|c s IH]; simpl; intros H; [reflexivity |].
  apply andb_true_iff in H. destruct H as [Hc Hs]. rewrite Hc. exact (IH Hs).
Qed.

(** X18: a value made of white space only reads as the number 0, like the
    empty value: the variable is stored as the number 0 and the spaces are
    lost. *)
Theorem blank_value_stored_as_zero (config : Config.t) (key value : string) :
  forallb isSpace (list_ascii_of_string value) = true ->
  startsWith key environmentPrefix = true ->
  Config.immutable config = false ->
  Number value = Dec 0 0
  /\ Config.get (stringToDot key) (environmentEntry config (key, value))
     = Some (JNum (Dec 0 0)).
Proof.
  intros Hblank Hp Hm.
  assert (Hn : Number value = Dec 0 0).
  { unfold Number, trim. rewrite (trimStart_blank value Hblank). reflexivity. }
  split; [exact Hn |].
  rewrite (environmentEntry_stores config key value Hm Hp).
  unfold storedValue. rewrite Hn. reflexivity.
Qed.

Lemma blank_value_stored_as_zero_witness :
  Number "   " = Dec 0 0
  /\ Config.get (stringToDot "HOUSTON_SERVER_PORT")
       (environmentEntry Config.new ("HOUSTON_SERVER_PORT", "   "))
     = Some (JNum (Dec 0 0)).
Proof.
  apply (blank_value_stored_as_zero Config.new "HOUSTON_SERVER_PORT" "   ");
    reflexivity.
Defined.







(** ** [getFileConfig] and [getConfig] *)

(** X20: with an explicit path, the file at that path, resolved against the
    working directory unless it begins with a slash, is the only one
    considered: what it exports becomes the frozen configuration, and when it
    cannot be loaded [getFileConfig] throws, and [getConfig] with it; the
    well-known paths are not tried. *)
Theorem getFileConfig_explicit_path (h : Host) (p : string) :
  getFileConfig h (Some p)
  = match requireFile h (if startsWith p "/" then p else resolveCwd h p) with
    | Normal file => Normal {| Config.tree := file; Config.immutable := true |}
    | Throw e => Throw e
    end
  /\ forall e,
       requireFile h (if startsWith p "/" then p else resolveCwd h p) = Throw e ->
       getConfig h (Some p) = Throw e.
Proof.
  assert (H : getFileConfig h (Some p)
              = match requireFile h (if startsWith p "/" then p else resolveCwd h p) with
                | Normal file => Normal {| Config.tree := file; Config.immutable := true |}
                | Throw e => Throw e
                end).
  { unfold getFileConfig. destruct (startsWith p "/").
    - destruct (requireFile h p) as [file | e]; [| reflexivity].
      unfold Config.freeze, Config.merge, Config.new. simpl.
      rewrite (right_id_L ∅ (∪)). reflexivity.
    - destruct (requireFile h (resolveCwd h p)) as [file | e]; [| reflexivity].
      unfold Config.freeze, Config.merge, Config.new. simpl.
      rewrite (right_id_L ∅ (∪)). reflexivity. }
  split; [exact H |].
  intros e He. unfold getConfig. rewrite H, He. reflexivity.
Qed.

Lemma getFileConfig_explicit_path_witness :
  getFileConfig sampleHost (Some "local.js") = Throw (Error "Cannot find module")
  /\ getConfig sampleHost (Some "local.js") = Throw (Error "Cannot find module").
Proof.
  destruct (getFileConfig_explicit_path sampleHost "local.js") as [H1 H2].
  split; [exact H1 | exact (H2 (Error "Cannot find module") eq_refl)].
Defined.

Lemma searchPaths_first (h : Host) (before after : list string)
    (possible : string) (file : gmap string JsValue) :
  (forall q, In q before ->
             statIsFile h q <> Normal true \/ exists e, requireFile h q = Throw e) ->
  statIsFile h possible = Normal true ->
  requireFile h possible = Normal file ->
  searchPaths h (before ++ possible :: after)%list = file.
Proof.
  intros Hbefore Hstat Hreq. induction before as [|q before IH]; simpl.
  - rewrite Hstat, Hreq. reflexivity.
  - assert (IH' := IH (fun q' Hq' => Hbefore q' (or_intror Hq'))).
    destruct (Hbefore q (or_introl eq_refl)) as [Hq | [e Hq]].
    + destruct (statIsFile h q) as [[|] | e]; [contradiction | exact IH' | exact IH'].
    + rewrite Hq. destruct (statIsFile h q) as [[|] | e']; exact IH'.
Qed.

(** X21: without a path, the configuration is that of the first well-known
    path that is a regular file and can be loaded; a path before it that is
    missing, that is not a file, or whose file cannot be loaded is passed
    over without an error, and the paths after it are not looked at. *)
Theorem getFileConfig_first_loadable
    (h : Host) (before after : list string) (possible : string)
    (file : gmap string JsValue) :
  configurationPaths h = (before ++ possible :: after)%list ->
  (forall q, In q before ->
             statIsFile h q <> Normal true \/ exists e, requireFile h q = Throw e) ->
  statIsFile h possible = Normal true ->
  requireFile h possible = Normal file ->
  getFileConfig h None = Normal {| Config.tree := file; Config.immutable := true |}.
Proof.
  intros Hpaths Hbefore Hstat Hreq. unfold getFileConfig.
  rewrite Hpaths, (searchPaths_first h before after possible file Hbefore Hstat Hreq).
  unfold Config.freeze, Config.merge, Config.new. simpl.
  rewrite (right_id_L ∅ (∪)). reflexivity.
Qed.

Lemma getFileConfig_first_loadable_witness :
  getFileConfig specialHost None
  = Normal {| Config.tree := {[ "log.level" := JStr "info"; "houston.version" := JStr "9.9.9" ]};
              Config.immutable := true |}.
Proof.
  apply (getFileConfig_first_loadable specialHost
           ["/srv/houston/config.js"] [] "/etc/houston/config.js").
  - reflexivity.
  - intros q [<- | []]. right. exists (Error "Cannot find module"). reflexivity.
  - reflexivity.
  - reflexivity.
Defined.

(** X22: the three sources in order of precedence: in the configuration
    that [getConfig] returns, a key has the value of the environment
    configuration when that one has the key, else the value of the file
    configuration when that one has it, else the value of the program
    configuration; the result is frozen. *)
Theorem getConfig_precedence (h : Host) (p : option string) (file : Config.t) :
  getFileConfig h p = Normal file ->
  exists config,
    getConfig h p = Normal config
    /\ Config.immutable config = true
    /\ forall key,
         Config.get key config
         = match Config.get key (getEnvironmentConfig h) with
           | Some v => Some v
           | None =>
               match Config.get key file with
               | Some v => Some v
               | None => Config.get key (getProgramConfig h)
               end
           end.
Proof.
  intros Hfile. unfold getConfig. rewrite Hfile.
  remember (getEnvironmentConfig h) as environment eqn:Eenv.
  remember (getProgramConfig h) as program eqn:Eprog.
  eexists. split; [reflexivity |]. split; [reflexivity |].
  intros key. unfold Config.get, Config.freeze, Config.merge, Config.getAll, Config.new.
  simpl. rewrite !lookup_union, lookup_empty.
  destruct (Config.tree environment !! key),
           (Config.tree file !! key),
           (Config.tree program !! key); reflexivity.
Qed.

Lemma getConfig_precedence_witness :
  exists config,
    getConfig specialHost None = Normal config
    /\ Config.immutable config = true
    /\ forall key,
         Config.get key config
         = match Config.get key (getEnvironmentConfig specialHost) with
           | Some v => Some v
           | None =>
               match Config.get key
                       {| Config.tree := {[ "log.level" := JStr "info";
                                            "houston.version" := JStr "9.9.9" ]};
                          Config.immutable := true |} with
               | Some v => Some v
               | None => Config.get key (getProgramConfig specialHost)
               end
           end.
Proof.
  apply (getConfig_precedence specialHost None).
  vm_compute. reflexivity.
Defined.

(** On the host above the file overrides the version of the program, and
    the program still gives the parts of its version and the commit. *)
Example getConfig_special :
  match getConfig specialHost None with
  | Normal config =>
      Config.get "houston.version" config = Some (JStr "9.9.9")
      /\ Config.get "houston.major" config = Some (JStr "0")
      /\ Config.get "houston.patch" config = Some (JStr "2")
      /\ Config.get "houston.commit" config = Some (JStr "3f2a9c1")
      /\ Config.get "houston.change" config = None
      /\ Config.get "environment" config = Some (JStr "7")
      /\ Config.get "log.console" config = Some (JStr "debug")
      /\ Config.get "log.level" config = Some (JStr "info")
      /\ Config.get "" config = Some (JNum (Dec 0 0))
  | Throw _ => False
  end.
Proof. vm_compute. repeat split. Qed.

(** ** [getProgramConfig] *)

Lemma setFromFile_mutable (h : Host) (path key : string) (config : Config.t) :
  Config.immutable config = false ->
  Config.immutable (setFromFile h path key config) = false.
Proof.
  intros H. unfold setFromFile.
  destruct (statIsFile h path) as [[|] | e]; try exact H.
  destruct (readFileSync h path) as [content | e]; [| exact H].
  apply set_mutable. exact H.
Qed.

Lemma setFromFile_get (h : Host) (path name key : string) (config : Config.t) :
  Config.immutable config = false ->
  Config.get key (setFromFile h path name config)
  = match statIsFile h path, readFileSync h path with
    | Normal true, Normal content =>
        if decide (name = key) then Some (JStr (trim content)) else Config.get key config
    | _, _ => Config.get key config
    end.
Proof.
  intros H. unfold setFromFile.
  destruct (statIsFile h path) as [[|] | e]; try reflexivity.
  destruct (readFileSync h path) as [content | e]; [| reflexivity].
  apply get_set. exact H.
Qed.

(** The four keys of the version, as the loop-free code sets them. *)
Lemma getProgramConfig_version (h : Host) (version : string) :
  packageVersion h = Normal (Some version) ->
  Config.get "houston.version" (getProgramConfig h) = Some (JStr version)
  /\ Config.get "houston.major" (getProgramConfig h)
     = Some (element (split "." (hd "" (split "-" version))) 0)
  /\ Config.get "houston.minor" (getProgramConfig h)
     = Some (element (split "." (hd "" (split "-" version))) 1)
  /\ Config.get "houston.patch" (getProgramConfig h)
     = Some (element (split "." (hd "" (split "-" version))) 2).
Proof.
  intros Hv. unfold getProgramConfig. rewrite Hv.
  set (parts := split "." (hd "" (split "-" version))).
  set (c1 := Config.set "houston.version" (JStr version) Config.new).
  set (c2 := Config.set "houston.major" (element parts 0) c1).
  set (c3 := Config.set "houston.minor" (element parts 1) c2).
  set (c4 := Config.set "houston.patch" (element parts 2) c3).
  assert (H1 : Config.immutable c1 = false) by reflexivity.
  assert (H2 : Config.immutable c2 = false) by (apply set_mutable; exact H1).
  assert (H3 : Config.immutable c3 = false) by (apply set_mutable; exact H2).
  assert (H4 : Config.immutable c4 = false) by (apply set_mutable; exact H3).
  assert (Hget : forall key,
             key <> "houston.commit" -> key <> "houston.change" ->
             Config.get key
               (Config.freeze
                  (setFromFile h (gitChangePath h) "houston.change"
                     (setFromFile h (gitCommitPath h) "houston.commit" c4)))
             = Config.get key c4).
  { intros key Hc Hg.
    change (Config.get key
              (setFromFile h (gitChangePath h) "houston.change"
                 (setFromFile h (gitCommitPath h) "houston.commit" c4))
            = Config.get key c4).
    rewrite setFromFile_get by (apply setFromFile_mutable; exact H4).
    rewrite setFromFile_get by exact H4.
    destruct (statIsFile h (gitChangePath h)) as [[|] | ?];
      destruct (readFileSync h (gitChangePath h)) as [? | ?];
      destruct (statIsFile h (gitCommitPath h)) as [[|] | ?];
      destruct (readFileSync h (gitCommitPath h)) as [? | ?];
      repeat case_decide; congruence. }
  rewrite !Hget by discriminate. unfold c4, c3, c2, c1.
  rewrite !get_set by (repeat apply set_mutable; reflexivity).
  repeat split.
Qed.

(** X23: a version of three parts, with or without a suffix after a dash,
    is stored whole under [houston.version], and its three parts, read
    before the first dash, under [houston.major], [houston.minor] and
    [houston.patch], as strings; the git files do not change them. *)
Theorem program_version_parts (h : Host) (major minor patch suffix : string) :
  packageVersion h
  = Normal (Some ((major ++ String "." (minor ++ String "." patch)) ++ suffix)) ->
  hasChar "." major = false -> hasChar "-" major = false ->
  hasChar "." minor = false -> hasChar "-" minor = false ->
  hasChar "." patch = false -> hasChar "-" patch = false ->
  (suffix = "" \/ exists pre, suffix = String "-" pre) ->
  Config.get "houston.version" (getProgramConfig h)
  = Some (JStr ((major ++ String "." (minor ++ String "." patch)) ++ suffix))
  /\ Config.get "houston.major" (getProgramConfig h) = Some (JStr major)
  /\ Config.get "houston.minor" (getProgramConfig h) = Some (JStr minor)
  /\ Config.get "houston.patch" (getProgramConfig h) = Some (JStr patch).
Proof.
  intros Hv HM1 HM2 Hm1 Hm2 Hp1 Hp2 Hsuffix.
  destruct (getProgramConfig_version h _ Hv) as (H0 & H1 & H2 & H3).
  set (core := major ++ String "." (minor ++ String "." patch)) in *.
  assert (Hdash : hasChar "-" core = false).
  { unfold core. rewrite hasChar_app. simpl. rewrite hasChar_app. simpl.
    rewrite HM2, Hm2, Hp2. reflexivity. }
  assert (Hhd : hd "" (split "-" (core ++ suffix)) = core).
  { destruct Hsuffix as [-> | [pre ->]].
    - rewrite append_empty_r, (split_no_separator "-" core Hdash). reflexivity.
    - rewrite (split_first_separator "-" core pre Hdash). reflexivity. }
  assert (Hparts : split "." core = [major; minor; patch]).
  { unfold core. rewrite (split_first_separator "." major _ HM1).
    rewrite (split_first_separator "." minor _ Hm1).
    rewrite (split_no_separator "." patch Hp1). reflexivity. }
  rewrite Hhd, Hparts in H1, H2, H3.
  split; [exact H0 |]. split; [exact H1 |]. split; [exact H2 | exact H3].
Qed.

Lemma program_version_parts_witness :
  Config.get "houston.version" (getProgramConfig sampleHost)
  = Some (JStr (("0" ++ String "." ("4" ++ String "." "2")) ++ "-beta"))
  /\ Config.get "houston.major" (getProgramConfig sampleHost) = Some (JStr "0")
  /\ Config.get "houston.minor" (getProgramConfig sampleHost) = Some (JStr "4")
  /\ Config.get "houston.patch" (getProgramConfig sampleHost) = Some (JStr "2").
Proof.
  apply (program_version_parts sampleHost "0" "4" "2" "-beta"); try reflexivity.
  right. exists "beta". reflexivity.
Defined.

(** X24: a version without a dot and without a dash is its own major part,
    and [houston.minor] and [houston.patch] are set to [undefined]. *)
Theorem program_version_single_part (h : Host) (version : string) :
  packageVersion h = Normal (Some version) ->
  hasChar "." version = false -> hasChar "-" version = false ->
  Config.get "houston.major" (getProgramConfig h) = Some (JStr version)
  /\ Config.get "houston.minor" (getProgramConfig h) = Some JUndefined
  /\ Config.get "houston.patch" (getProgramConfig h) = Some JUndefined.
Proof.
  intros Hv Hdot Hdash.
  destruct (getProgramConfig_version h _ Hv) as (_ & H1 & H2 & H3).
  rewrite (split_no_separator "-" version Hdash) in H1, H2, H3. simpl hd in *.
  rewrite (split_no_separator "." version Hdot) in H1, H2, H3.
  split; [exact H1 |]. split; [exact H2 | exact H3].
Qed.

(** X25: the program configuration holds no key but the six of the loader:
    the version and its three parts, the commit and the change. Without a
    readable version, none of the first four is there. *)
Theorem program_keys (h : Host) (key : string) (v : JsValue) :
  Config.get key (getProgramConfig h) = Some v ->
  In key ["houston.version"; "houston.major"; "houston.minor"; "houston.patch";
          "houston.commit"; "houston.change"]
  /\ ((forall version, packageVersion h <> Normal (Some version)) ->
      key = "houston.commit" \/ key = "houston.change").
Proof.
  unfold getProgramConfig.
  set (versioned := match packageVersion h with
                    | Normal (Some version) => _
                    | _ => Config.new
                    end).
  assert (Hm : Config.immutable versioned = false).
  { unfold versioned. destruct (packageVersion h) as [[version |] | e]; reflexivity. }
  assert (Hversioned : forall w, Config.get key versioned = Some w ->
            In key ["houston.version"; "houston.major"; "houston.minor"; "houston.patch"]
            /\ exists version, packageVersion h = Normal (Some version)).
  { intros w. unfold versioned.
    destruct (packageVersion h) as [[version |] | e];
      try (unfold Config.get; simpl; rewrite lookup_empty; discriminate).
    rewrite !get_set by (repeat apply set_mutable; reflexivity).
    repeat case_decide; subst; simpl; intros Hw; try (split; [tauto | eauto]).
    unfold Config.get in Hw. simpl in Hw. rewrite lookup_empty in Hw. discriminate. }
  change (Config.get key
            (setFromFile h (gitChangePath h) "houston.change"
               (setFromFile h (gitCommitPath h) "houston.commit" versioned)) = Some v ->
          In key ["houston.version"; "houston.major"; "houston.minor"; "houston.patch";
                  "houston.commit"; "houston.change"]
          /\ ((forall version, packageVersion h <> Normal (Some version)) ->
              key = "houston.commit" \/ key = "houston.change")).
  rewrite setFromFile_get by (apply setFromFile_mutable; exact Hm).
  rewrite setFromFile_get by exact Hm.
  assert (Hbase : Config.get key versioned = Some v ->
            In key ["houston.version"; "houston.major"; "houston.minor"; "houston.patch";
                    "houston.commit"; "houston.change"]
            /\ ((forall version, packageVersion h <> Normal (Some version)) ->
                key = "houston.commit" \/ key = "houston.change")).
  { intros Hw. destruct (Hversioned v Hw) as [Hin [version Hv]]. split.
    - simpl in *. tauto.
    - intros Hno. exfalso. exact (Hno version Hv). }
  destruct (statIsFile h (gitChangePath h)) as [[|] | ?];
    destruct (readFileSync h (gitChangePath h)) as [? | ?];
    destruct (statIsFile h (gitCommitPath h)) as [[|] | ?];
    destruct (readFileSync h (gitCommitPath h)) as [? | ?];
    repeat case_decide; subst; try exact Hbase;
    intros _; (split; [simpl; tauto | intros _; tauto]).
Qed.

Lemma program_keys_witness :
  In "houston.commit"
     ["houston.version"; "houston.major"; "houston.minor"; "houston.patch";
      "houston.commit"; "houston.change"]
  /\ ((forall version, packageVersion specialHost <> Normal (Some version)) ->
      "houston.commit" = "houston.commit" \/ "houston.commit" = "houston.change").
Proof.
  apply (program_keys specialHost "houston.commit" (JStr "3f2a9c1")).
  vm_compute. reflexivity.
Defined.

Lemma program_version_single_part_witness :
  Config.get "houston.major" (getProgramConfig plainHost) = Some (JStr "7")
  /\ Config.get "houston.minor" (getProgramConfig plainHost) = Some JUndefined
  /\ Config.get "houston.patch" (getProgramConfig plainHost) = Some JUndefined.
Proof. apply (program_version_single_part plainHost "7"); reflexivity. Defined.

(** X26: the commit is in the program configuration exactly when the git
    file is a regular file that can be read, and then it is the content of
    the file without the white space around it; a missing or unreadable file
    leaves the key out and raises nothing, and neither the version nor the
    change touches it. *)
Theorem program_commit (h : Host) :
  Config.get "houston.commit" (getProgramConfig h)
  = match statIsFile h (gitCommitPath h), readFileSync h (gitCommitPath h) with
    | Normal true, Normal content => Some (JStr (trim content))
    | _, _ => None
    end.
Proof.
  unfold getProgramConfig.
  set (versioned := match packageVersion h with
                    | Normal (Some version) => _
                    | _ => Config.new
                    end).
  assert (Hm : Config.immutable versioned = false).
  { unfold versioned. destruct (packageVersion h) as [[version |] | e]; reflexivity. }
  assert (Hnone : Config.get "houston.commit" versioned = None).
  { unfold versioned. destruct (packageVersion h) as [[version |] | e];
      try (unfold Config.get; simpl; apply lookup_empty).
    rewrite !get_set by (repeat apply set_mutable; reflexivity).
    repeat (case_decide; [discriminate |]).
    unfold Config.get. simpl. apply lookup_empty. }
  change (Config.get "houston.commit"
            (setFromFile h (gitChangePath h) "houston.change"
               (setFromFile h (gitCommitPath h) "houston.commit" versioned))
          = match statIsFile h (gitCommitPath h), readFileSync h (gitCommitPath h) with
            | Normal true, Normal content => Some (JStr (trim content))
            | _, _ => None
            end).
  rewrite setFromFile_get by (apply setFromFile_mutable; exact Hm).
  rewrite setFromFile_get by exact Hm. rewrite Hnone.
  destruct (statIsFile h (gitChangePath h)) as [[|] | ?];
    destruct (readFileSync h (gitChangePath h)) as [? | ?];
    destruct (statIsFile h (gitCommitPath h)) as [[|] | ?];
    destruct (readFileSync h (gitCommitPath h)) as [? | ?];
    repeat case_decide; first [reflexivity | congruence].
Qed.

(** ** Starting the hooks *)

(** X27: the hooks are started in the order of the array and the first one
    that throws ends the run: [runHooks] rejects with its error as soon as
    the tree is read, logs nothing, and does not depend on the hooks after
    it. *)
Theorem runHooks_first_throw
    (t0 : nat) (before after : list (string * Hook)) (path : string) (h : Hook)
    (started : list (Promise PartialResult)) (data : Job) (test : string) (e : JsError) :
  walk (Modules t0 (before ++ (path, h) :: after)%list) (hookFilter test)
  = Fulfilled t0 (before ++ (path, h) :: after)%list ->
  startAll data (List.map snd before) = Normal started ->
  h data = Throw e ->
  runHooks (Modules t0 (before ++ (path, h) :: after)%list) data test
  = ([], Rejected t0 e).
Proof.
  intros Hwalk Hstart Hthrow. unfold runHooks. rewrite Hwalk.
  assert (H : startAll data (List.map snd (before ++ (path, h) :: after)%list) = Throw e).
  { clear Hwalk. revert started Hstart.
    induction before as [|[p0 h0] before IH]; intros started Hstart; simpl in *.
    - rewrite Hthrow. reflexivity.
    - destruct (h0 data) as [p1 | e1]; [| discriminate].
      destruct (startAll data (List.map snd before)) as [ps | e1]; [| discriminate].
      rewrite (IH ps eq_refl). reflexivity. }
  rewrite H. reflexivity.
Qed.

Lemma runHooks_first_throw_witness :
  runHooks (Modules 2 ([("lint/pre.js", lintHook)]
                       ++ ("size/pre.js", throwingHook) :: [("late/pre.js", rejectingHook)])%list)
    sampleJob "pre"
  = ([], Rejected 2 (Error "cannot construct")).
Proof.
  apply (runHooks_first_throw 2 [("lint/pre.js", lintHook)] [("late/pre.js", rejectingHook)]
           "size/pre.js" throwingHook [Fulfilled 3 lintResult] sampleJob "pre"
           (Error "cannot construct")); reflexivity.
Defined.

(** ** The callback of the walk *)

Lemma prefix_empty (s : string) : String.prefix "" s = true.
Proof. destruct s; reflexivity. Qed.

Lemma indexOfFrom_char (c : ascii) (s : string) (k : Z) :
  (0 <= k)%Z ->
  indexOfFrom k s (String c "") = (-1)%Z <-> hasChar c s = false.
Proof.
  revert k. induction s as [|d s IH]; intros k Hk; cbn [indexOfFrom hasChar].
  - simpl. split; reflexivity.
  - simpl String.prefix. rewrite prefix_empty.
    destruct (ascii_dec c d) as [<- | Hne].
    + rewrite Ascii.eqb_refl. simpl. split; [lia | discriminate].
    + assert (E : Ascii.eqb d c = false)
        by (apply Ascii.eqb_neq; intros ->; contradiction).
      rewrite E. simpl. apply IH. lia.
Qed.

(** X2: the callback of [runHooks] accepts a path exactly when the path
    holds a slash and does not begin with the lowercased phase followed by
    [.js]: the phase decides nothing else, and a path is never accepted for
    the file name it ends with. *)
Theorem hookFilter_accepts (test path : string) :
  hookFilter test path
  = hasChar "/" path && negb (String.prefix (toLowerCase test ++ ".js") path).
Proof.
  unfold hookFilter.
  destruct (hasChar "/" path) eqn:Hslash.
  - destruct (Z.eqb_spec (indexOf path "/") (-1)) as [Habs | _].
    + apply (indexOfFrom_char "/" path 0) in Habs; [congruence | lia].
    + simpl. f_equal.
      destruct (String.prefix (toLowerCase test ++ ".js") path) eqn:Hp.
      * apply indexOf_zero_prefix in Hp. rewrite Hp. reflexivity.
      * destruct (Z.eqb_spec (indexOf path (toLowerCase test ++ ".js")) 0) as [H0 | _];
          [| reflexivity].
        apply indexOf_zero_prefix in H0. congruence.
  - apply (indexOfFrom_char "/" path 0) in Hslash; [| lia].
    unfold indexOf. rewrite Hslash. reflexivity.
Qed.
